(** * Hydrogen plant configuration catalog (data.py, Project.py)

    A shallow embedding of the frozen dataclasses of [data.py], of the two
    catalog entries, of the module global [PLANT_CONFIGURATIONS] and of the
    accessor [as_dict_list], followed by the properties of the catalog and
    of its mapping form.

    Python floats are IEEE binary64 values: they are modelled by Rocq's
    primitive floats, whose decimal literals are rounded to the nearest
    binary64 value exactly as Python's are.  Python's [==] on floats is
    [PrimFloat.eqb]. *)

From Stdlib Require Import PrimFloat.
From stdpp Require Import base option list strings.

Set Warnings "-inexact-float,-register-all".

(** ** The dataclasses *)

Record InputData := {
  electricity_pct_total_input_mwh : float;
  heat_pct_total_input_mwh : option float;
  heat_loss_pct_total_input_mwh : float;
  water_for_electrolysis_kg_per_mwh_input : float
}.

Record OutputData := {
  hydrogen_output_pct_total_output_mwh : float;
  hydrogen_ch2_pct_total_output : float;
  hydrogen_for_district_heating_pct_points_of_heat_loss : float;
  oxygen_output_pct_total_output_mwh : float;
  oxygen_recovered_for_district_heating_pct_points_of_heat_loss : float;
  heat_output_pct_total_output_mwh : float;
  hydrogen_yield_kg_per_mwh_input_e : float;
  oxygen_yield_kg_per_mwh_input_e : float
}.

Record EnergyTechnicalData := {
  total_plant_size_mw_input_e : float;
  planned_outage_days_per_annum : float;
  technical_lifetime_years : float;
  input : InputData;
  output : OutputData
}.

Record FinancialData := {
  specific_investment_eur_per_kw_total_input : float;
  specific_investment_eur_per_kg_per_hour_hydrogen_output : float;
  o_and_m_pct_of_specific_investment_per_year : float
}.

Record TechnologySpecificData := {
  current_density_a_per_cm2 : float;
  footprint_m2_per_mw_input_e : float;
  degradation_rate_pct_per_annum : float;
  frequency_of_stack_replacement_years : float
}.

Record PlantConfiguration := {
  name : string;
  energy_technical : EnergyTechnicalData;
  financial : FinancialData;
  technology_specific : TechnologySpecificData
}.

(** ** Data instances *)

Definition AEC_100MW_ENS_2025 : PlantConfiguration := {|
  name := "AEC 100 MW (ENS, 2025)";
  energy_technical := {|
    total_plant_size_mw_input_e := 100.0;
    planned_outage_days_per_annum := 20.0;
    technical_lifetime_years := 20.0;
    input := {|
      electricity_pct_total_input_mwh := 100.0;
      heat_pct_total_input_mwh := None;
      heat_loss_pct_total_input_mwh := 0.0;
      water_for_electrolysis_kg_per_mwh_input := 89.15
    |};
    output := {|
      hydrogen_output_pct_total_output_mwh := 58.7;
      hydrogen_ch2_pct_total_output := 32.3;
      hydrogen_for_district_heating_pct_points_of_heat_loss := 26.4;
      oxygen_output_pct_total_output_mwh := 40.9;
      oxygen_recovered_for_district_heating_pct_points_of_heat_loss := 0.0;
      heat_output_pct_total_output_mwh := 0.4;
      hydrogen_yield_kg_per_mwh_input_e := 20.00;
      oxygen_yield_kg_per_mwh_input_e := 141.79
    |}
  |};
  financial := {|
    specific_investment_eur_per_kw_total_input := 1161.3;
    specific_investment_eur_per_kg_per_hour_hydrogen_output := 5585.15;
    o_and_m_pct_of_specific_investment_per_year := 15.0
  |};
  technology_specific := {|
    current_density_a_per_cm2 := 0.5;
    footprint_m2_per_mw_input_e := 10000.0;
    degradation_rate_pct_per_annum := 0.125;
    frequency_of_stack_replacement_years := 10.0
  |}
|}.

Definition PEM_100MW_ENS_2025 : PlantConfiguration := {|
  name := "PEM 100 MW (ENS, 2025)";
  energy_technical := {|
    total_plant_size_mw_input_e := 100.0;
    planned_outage_days_per_annum := 20.0;
    technical_lifetime_years := 20.0;
    input := {|
      electricity_pct_total_input_mwh := 100.0;
      heat_pct_total_input_mwh := None;
      heat_loss_pct_total_input_mwh := 0.0;
      water_for_electrolysis_kg_per_mwh_input := 91.82
    |};
    output := {|
      hydrogen_output_pct_total_output_mwh := 73.3;
      hydrogen_ch2_pct_total_output := 25.0;
      hydrogen_for_district_heating_pct_points_of_heat_loss := 30.0;
      oxygen_output_pct_total_output_mwh := 25.7;
      oxygen_recovered_for_district_heating_pct_points_of_heat_loss := 0.0;
      heat_output_pct_total_output_mwh := 1.0;
      hydrogen_yield_kg_per_mwh_input_e := 20.95;
      oxygen_yield_kg_per_mwh_input_e := 148.53
    |}
  |};
  financial := {|
    specific_investment_eur_per_kw_total_input := 1368.2;
    specific_investment_eur_per_kg_per_hour_hydrogen_output := 6876.8;
    o_and_m_pct_of_specific_investment_per_year := 15.0
  |};
  technology_specific := {|
    current_density_a_per_cm2 := 2.0;
    footprint_m2_per_mw_input_e := 7000.0;
    degradation_rate_pct_per_annum := 0.125;
    frequency_of_stack_replacement_years := 6.0
  |}
|}.

Definition PLANT_CONFIGURATIONS : list PlantConfiguration :=
  [AEC_100MW_ENS_2025; PEM_100MW_ENS_2025].

(** ** Python values, exceptions and dataclass reflection

    A value stored in a field of one of the records is a float, a string,
    [None] or an instance of another dataclass.  An instance carries its
    class (name, the decorator's [frozen] argument and the declared field
    names, in order: what [dataclasses.fields] returns) and its attribute
    values in field order. *)

Record pyclass := {
  cls_name : string;
  cls_frozen : bool;
  cls_fields : list string
}.

Inductive pyval :=
| PyFloat (x : float)
| PyStr (s : string)
| PyNone
| PyInstance (cls : pyclass) (attrs : list (string * pyval)).

(** A subscript: [v["k"]] or [v[i]]. *)
Inductive pykey :=
| KStr (k : string)
| KInt (i : nat).

Inductive exn :=
| FrozenInstanceError (msg : string)
| AttributeError (attr : string)
| TypeError (msg : string)
| KeyError (key : pykey)
| IndexError.

Inductive result (A : Type) :=
| Ok (a : A)
| Raise (e : exn).
Arguments Ok {A} a.
Arguments Raise {A} e.

(** [Optional[float]]: a float or [None]. *)
Definition py_optional_float (o : option float) : pyval :=
  match o with
  | Some x => PyFloat x
  | None => PyNone
  end.

(** What [@dataclass] adds to a record type: the class object and the
    attribute values of an instance, keyed by the declared field names. *)
Class Dataclass (A : Type) := {
  dc_class : pyclass;
  dc_attrs : A -> list (string * pyval);
  dc_attrs_fields : forall x, (dc_attrs x).*1 = cls_fields dc_class
}.
Arguments dc_class A {_}.

Definition to_py {A} `{Dataclass A} (x : A) : pyval :=
  PyInstance (dc_class A) (dc_attrs x).

#[export] Instance InputData_dataclass : Dataclass InputData := {|
  dc_class := {|
    cls_name := "InputData";
    cls_frozen := true;
    cls_fields := [ "electricity_pct_total_input_mwh";
                    "heat_pct_total_input_mwh";
                    "heat_loss_pct_total_input_mwh";
                    "water_for_electrolysis_kg_per_mwh_input" ] |};
  dc_attrs x :=
    [ ("electricity_pct_total_input_mwh", PyFloat (electricity_pct_total_input_mwh x));
      ("heat_pct_total_input_mwh", py_optional_float (heat_pct_total_input_mwh x));
      ("heat_loss_pct_total_input_mwh", PyFloat (heat_loss_pct_total_input_mwh x));
      ("water_for_electrolysis_kg_per_mwh_input",
       PyFloat (water_for_electrolysis_kg_per_mwh_input x)) ];
  dc_attrs_fields _ := eq_refl
|}.

#[export] Instance OutputData_dataclass : Dataclass OutputData := {|
  dc_class := {|
    cls_name := "OutputData";
    cls_frozen := true;
    cls_fields := [ "hydrogen_output_pct_total_output_mwh";
                    "hydrogen_ch2_pct_total_output";
                    "hydrogen_for_district_heating_pct_points_of_heat_loss";
                    "oxygen_output_pct_total_output_mwh";
                    "oxygen_recovered_for_district_heating_pct_points_of_heat_loss";
                    "heat_output_pct_total_output_mwh";
                    "hydrogen_yield_kg_per_mwh_input_e";
                    "oxygen_yield_kg_per_mwh_input_e" ] |};
  dc_attrs x :=
    [ ("hydrogen_output_pct_total_output_mwh",
       PyFloat (hydrogen_output_pct_total_output_mwh x));
      ("hydrogen_ch2_pct_total_output", PyFloat (hydrogen_ch2_pct_total_output x));
      ("hydrogen_for_district_heating_pct_points_of_heat_loss",
       PyFloat (hydrogen_for_district_heating_pct_points_of_heat_loss x));
      ("oxygen_output_pct_total_output_mwh",
       PyFloat (oxygen_output_pct_total_output_mwh x));
      ("oxygen_recovered_for_district_heating_pct_points_of_heat_loss",
       PyFloat (oxygen_recovered_for_district_heating_pct_points_of_heat_loss x));
      ("heat_output_pct_total_output_mwh", PyFloat (heat_output_pct_total_output_mwh x));
      ("hydrogen_yield_kg_per_mwh_input_e", PyFloat (hydrogen_yield_kg_per_mwh_input_e x));
      ("oxygen_yield_kg_per_mwh_input_e", PyFloat (oxygen_yield_kg_per_mwh_input_e x)) ];
  dc_attrs_fields _ := eq_refl
|}.

#[export] Instance EnergyTechnicalData_dataclass : Dataclass EnergyTechnicalData := {|
  dc_class := {|
    cls_name := "EnergyTechnicalData";
    cls_frozen := true;
    cls_fields := [ "total_plant_size_mw_input_e";
                    "planned_outage_days_per_annum";
                    "technical_lifetime_years";
                    "input";
                    "output" ] |};
  dc_attrs x :=
    [ ("total_plant_size_mw_input_e", PyFloat (total_plant_size_mw_input_e x));
      ("planned_outage_days_per_annum", PyFloat (planned_outage_days_per_annum x));
      ("technical_lifetime_years", PyFloat (technical_lifetime_years x));
      ("input", to_py (input x));
      ("output", to_py (output x)) ];
  dc_attrs_fields _ := eq_refl
|}.

#[export] Instance FinancialData_dataclass : Dataclass FinancialData := {|
  dc_class := {|
    cls_name := "FinancialData";
    cls_frozen := true;
    cls_fields := [ "specific_investment_eur_per_kw_total_input";
                    "specific_investment_eur_per_kg_per_hour_hydrogen_output";
                    "o_and_m_pct_of_specific_investment_per_year" ] |};
  dc_attrs x :=
    [ ("specific_investment_eur_per_kw_total_input",
       PyFloat (specific_investment_eur_per_kw_total_input x));
      ("specific_investment_eur_per_kg_per_hour_hydrogen_output",
       PyFloat (specific_investment_eur_per_kg_per_hour_hydrogen_output x));
      ("o_and_m_pct_of_specific_investment_per_year",
       PyFloat (o_and_m_pct_of_specific_investment_per_year x)) ];
  dc_attrs_fields _ := eq_refl
|}.

#[export] Instance TechnologySpecificData_dataclass :
  Dataclass TechnologySpecificData := {|
  dc_class := {|
    cls_name := "TechnologySpecificData";
    cls_frozen := true;
    cls_fields := [ "current_density_a_per_cm2";
                    "footprint_m2_per_mw_input_e";
                    "degradation_rate_pct_per_annum";
                    "frequency_of_stack_replacement_years" ] |};
  dc_attrs x :=
    [ ("current_density_a_per_cm2", PyFloat (current_density_a_per_cm2 x));
      ("footprint_m2_per_mw_input_e", PyFloat (footprint_m2_per_mw_input_e x));
      ("degradation_rate_pct_per_annum", PyFloat (degradation_rate_pct_per_annum x));
      ("frequency_of_stack_replacement_years",
       PyFloat (frequency_of_stack_replacement_years x)) ];
  dc_attrs_fields _ := eq_refl
|}.

#[export] Instance PlantConfiguration_dataclass : Dataclass PlantConfiguration := {|
  dc_class := {|
    cls_name := "PlantConfiguration";
    cls_frozen := true;
    cls_fields := [ "name"; "energy_technical"; "financial"; "technology_specific" ] |};
  dc_attrs x :=
    [ ("name", PyStr (name x));
      ("energy_technical", to_py (energy_technical x));
      ("financial", to_py (financial x));
      ("technology_specific", to_py (technology_specific x)) ];
  dc_attrs_fields _ := eq_refl
|}.

(** ** Construction and attribute assignment

    [@dataclass] generates [__init__], which binds every declared field from
    the keyword arguments (a missing or an unexpected keyword is a
    [TypeError], whose message is shortened here; field values are not
    validated), and, for [frozen=True], a [__setattr__] that raises
    [FrozenInstanceError] instead of storing. *)

Fixpoint kwargs_get (k : string) (kwargs : list (string * pyval)) : option pyval :=
  match kwargs with
  | [] => None
  | (k', v) :: rest => if String.eqb k k' then Some v else kwargs_get k rest
  end.

Fixpoint bind_fields (fields : list string) (kwargs : list (string * pyval))
  : result (list (string * pyval)) :=
  match fields with
  | [] => Ok []
  | f :: fields' =>
      match kwargs_get f kwargs with
      | None => Raise (TypeError ("missing required argument: '" +:+ f +:+ "'"))
      | Some v =>
          match bind_fields fields' kwargs with
          | Ok attrs => Ok ((f, v) :: attrs)
          | Raise e => Raise e
          end
      end
  end.

Definition dataclass_init (cls : pyclass) (kwargs : list (string * pyval)) : result pyval :=
  match List.find (fun kv => negb (existsb (String.eqb kv.1) (cls_fields cls))) kwargs with
  | Some kv => Raise (TypeError ("got an unexpected keyword argument '" +:+ kv.1 +:+ "'"))
  | None =>
      match bind_fields (cls_fields cls) kwargs with
      | Ok attrs => Ok (PyInstance cls attrs)
      | Raise e => Raise e
      end
  end.

Fixpoint attrs_set (k : string) (v : pyval) (attrs : list (string * pyval))
  : list (string * pyval) :=
  match attrs with
  | [] => [(k, v)]
  | (k', v') :: rest =>
      if String.eqb k k' then (k, v) :: rest else (k', v') :: attrs_set k v rest
  end.

(** [type(self).__setattr__(self, attr, value)]. *)
Definition dataclass_setattr (self : pyval) (attr : string) (value : pyval) : result pyval :=
  match self with
  | PyInstance cls attrs =>
      if cls_frozen cls
      then Raise (FrozenInstanceError ("cannot assign to field '" +:+ attr +:+ "'"))
      else Ok (PyInstance cls (attrs_set attr value attrs))
  | _ => Raise (AttributeError attr)
  end.

(** The statement [self.attr = value]: the exception it raises, if any, and
    the object afterwards. *)
Definition assign_attr (self : pyval) (attr : string) (value : pyval) : option exn * pyval :=
  match dataclass_setattr self attr value with
  | Ok self' => (None, self')
  | Raise e => (Some e, self)
  end.

(** ** The heap of mutable objects

    [asdict] builds [dict] objects and the list comprehension of
    [as_dict_list] builds a [list] object: both are mutable and have an
    identity, so they live in a heap and are referred to by location.
    Floats, strings and [None] are immutable and stored by value. *)

Definition loc := nat.

Inductive val :=
| VFloat (x : float)
| VStr (s : string)
| VNone
| VRef (l : loc).

Inductive obj :=
| ODict (items : list (string * val))
| OList (elems : list val).

Definition M (A : Type) : Type := list obj -> A * list obj.

Definition ret {A} (a : A) : M A := fun h => (a, h).

Definition bind {A B} (m : M A) (k : A -> M B) : M B :=
  fun h => let (a, h') := m h in k a h'.

Declare Scope heap_scope.
Delimit Scope heap_scope with heap.
Notation "x <- m ;; k" := (bind m (fun x => k))
  (at level 100, m at next level, right associativity) : heap_scope.

(** A new object gets the next free location. *)
Definition alloc (o : obj) : M loc := fun h => (length h, h ++ [o]).

(** ** [dataclasses.asdict]

    [_asdict_inner] returns a float, a string or [None] as it is and turns
    a dataclass instance into a new [dict]
    [{f.name: _asdict_inner(getattr(obj, f.name)) for f in fields(obj)}]. *)

Fixpoint asdict_inner (v : pyval) : M val :=
  match v with
  | PyFloat x => ret (VFloat x)
  | PyStr s => ret (VStr s)
  | PyNone => ret VNone
  | PyInstance _ attrs =>
      (items <- (fix comprehension (fs : list (string * pyval)) : M (list (string * val)) :=
                   match fs with
                   | [] => ret []
                   | (k, a) :: fs' =>
                       (w <- asdict_inner a ;;
                        rest <- comprehension fs' ;;
                        ret ((k, w) :: rest))%heap
                   end) attrs ;;
       l <- alloc (ODict items) ;;
       ret (VRef l))%heap
  end.

Definition asdict_items : list (string * pyval) -> M (list (string * val)) :=
  fix comprehension fs :=
    match fs with
    | [] => ret []
    | (k, a) :: fs' =>
        (w <- asdict_inner a ;;
         rest <- comprehension fs' ;;
         ret ((k, w) :: rest))%heap
    end.

Definition asdict {A} `{Dataclass A} (x : A) : M val := asdict_inner (to_py x).

(** ** The module state and [as_dict_list]

    The state of a run: the list the module global [PLANT_CONFIGURATIONS]
    is bound to, the heap of the objects [as_dict_list] has built, and what
    was printed.  The records are frozen and hold only floats, strings,
    [None] and other frozen records, so they are kept by value.  No
    statement of [data.py] or [Project.py] rebinds the global or updates
    its list after the module is loaded; [as_dict_list] only reads it. *)

Inductive out_event :=
| PPrintValue (v : val)
| PrintBlank
| PPrintRecords (cs : list PlantConfiguration).

Record state := {
  plant_configurations : list PlantConfiguration;
  heap : list obj;
  stdout : list out_event
}.

(** The state once [data.py] is loaded. *)
Definition module_state : state := {|
  plant_configurations := PLANT_CONFIGURATIONS;
  heap := [];
  stdout := []
|}.

(** [[asdict(config) for config in configs]], without the final list. *)
Fixpoint asdict_each (configs : list PlantConfiguration) : M (list val) :=
  match configs with
  | [] => ret []
  | config :: configs' =>
      (d <- asdict config ;;
       ds <- asdict_each configs' ;;
       ret (d :: ds))%heap
  end.

Definition as_dict_list (s : state) : val * state :=
  let (r, h) := (ds <- asdict_each (plant_configurations s) ;;
                 l <- alloc (OList ds) ;;
                 ret (VRef l))%heap (heap s) in
  (r, {| plant_configurations := plant_configurations s;
         heap := h;
         stdout := stdout s |}).

(** Project.py: [pprint(as_dict_list()); print(); pprint(PLANT_CONFIGURATIONS)].
    The text [pprint] produces is not modelled, only what is printed. *)
Definition write (o : out_event) (s : state) : state :=
  {| plant_configurations := plant_configurations s;
     heap := heap s;
     stdout := stdout s ++ [o] |}.

Definition main (s : state) : state :=
  let (r, s1) := as_dict_list s in
  let s2 := write (PPrintValue r) s1 in
  let s3 := write PrintBlank s2 in
  write (PPrintRecords (plant_configurations s3)) s3.

(** The transitions of the state: the two operations of the program and,
    since the accessor hands out mutable objects, a caller replacing the
    contents of a [dict] or [list] it was handed.  A caller that reaches
    into the module and changes the catalog list itself is not a
    transition of the program. *)
Definition store (l : loc) (o : obj) (s : state) : state :=
  {| plant_configurations := plant_configurations s;
     heap := <[l := o]> (heap s);
     stdout := stdout s |}.

Inductive step : state -> state -> Prop :=
| step_as_dict_list s : step s (as_dict_list s).2
| step_main s : step s (main s)
| step_store s l o : l < length (heap s) -> step s (store l o s).

Inductive reachable : state -> Prop :=
| reachable_init : reachable module_state
| reachable_step s s' : reachable s -> step s s' -> reachable s'.

(** ** Reading mappings

    [v[key]] as Python evaluates it on the values of the heap, its two
    uses [v[i]] and [v[k]], and a chain of string subscripts. *)

Fixpoint items_get (k : string) (items : list (string * val)) : option val :=
  match items with
  | [] => None
  | (k', w) :: rest => if String.eqb k k' then Some w else items_get k rest
  end.

(** Python has no dangling reference: the last case of [subscript] is
    never met on the heap of a run. *)
Definition not_subscriptable (v : val) : exn :=
  match v with
  | VFloat _ => TypeError "'float' object is not subscriptable"
  | VNone => TypeError "'NoneType' object is not subscriptable"
  | _ => TypeError "invalid reference"
  end.

Definition subscript (h : list obj) (v : val) (key : pykey) : result val :=
  match v with
  | VRef l =>
      match h !! l, key with
      | Some (OList elems), KInt i =>
          match elems !! i with
          | Some w => Ok w
          | None => Raise IndexError
          end
      | Some (OList _), KStr _ =>
          Raise (TypeError "list indices must be integers or slices, not str")
      | Some (ODict items), KStr k =>
          match items_get k items with
          | Some w => Ok w
          | None => Raise (KeyError key)
          end
      | Some (ODict _), KInt _ => Raise (KeyError key)
      | None, _ => Raise (not_subscriptable v)
      end
  | VStr s =>
      match key with
      | KInt i =>
          match String.get i s with
          | Some ch => Ok (VStr (String ch EmptyString))
          | None => Raise IndexError
          end
      | KStr _ => Raise (TypeError "string indices must be integers, not 'str'")
      end
  | _ => Raise (not_subscriptable v)
  end.

Definition getitem_list (h : list obj) (v : val) (i : nat) : result val :=
  subscript h v (KInt i).

Definition getitem_dict (h : list obj) (v : val) (k : string) : result val :=
  subscript h v (KStr k).

Fixpoint getitem_path (h : list obj) (v : val) (path : list string) : result val :=
  match path with
  | [] => Ok v
  | k :: path' =>
      match getitem_dict h v k with
      | Ok w => getitem_path h w path'
      | Raise e => Raise e
      end
  end.

(** [list(d.keys())] in insertion order. *)
Definition dict_keys (h : list obj) (v : val) : option (list string) :=
  match v with
  | VRef l =>
      match h !! l with
      | Some (ODict items) => Some items.*1
      | _ => None
      end
  | _ => None
  end.

(** Attribute access on the records: [getattr(v, k)] and a chain of them. *)
Definition getattr (v : pyval) (k : string) : result pyval :=
  match v with
  | PyInstance _ attrs =>
      match kwargs_get k attrs with
      | Some a => Ok a
      | None => Raise (AttributeError k)
      end
  | _ => Raise (AttributeError k)
  end.

Fixpoint getattr_path (v : pyval) (path : list string) : result pyval :=
  match path with
  | [] => Ok v
  | k :: path' =>
      match getattr v k with
      | Ok a => getattr_path a path'
      | Raise e => Raise e
      end
  end.

(** ** Nested values

    The structure a heap value stands for, with the identities of the
    objects forgotten: two values are structurally equal when they stand
    for the same [tree]. *)

Inductive tree :=
| TFloat (x : float)
| TStr (s : string)
| TNone
| TDict (items : list (string * tree))
| TList (elems : list tree).

(** The mapping form of a record as the specification words it: the keys
    are the field names, nested records become nested mappings, the other
    values are copied. *)
Fixpoint nested_mapping (v : pyval) : tree :=
  match v with
  | PyFloat x => TFloat x
  | PyStr s => TStr s
  | PyNone => TNone
  | PyInstance _ attrs => TDict (map (fun kv => (kv.1, nested_mapping kv.2)) attrs)
  end.

Definition mapping_list (configs : list PlantConfiguration) : tree :=
  TList (map (fun c => nested_mapping (to_py c)) configs).

Fixpoint all2 {A B} (P : A -> B -> Prop) (xs : list A) (ys : list B) : Prop :=
  match xs, ys with
  | [], [] => True
  | x :: xs', y :: ys' => P x y /\ all2 P xs' ys'
  | _, _ => False
  end.

(** [represents a b h t v]: in heap [h] the value [v] stands for [t], and
    every object it is made of is at a location in [[a, b)]. *)
Fixpoint represents (a b : loc) (h : list obj) (t : tree) (v : val) {struct t} : Prop :=
  match t with
  | TFloat x => v = VFloat x
  | TStr s => v = VStr s
  | TNone => v = VNone
  | TDict ts =>
      exists l items, v = VRef l /\ a <= l < b /\ h !! l = Some (ODict items) /\
        all2 (fun kt kw => kt.1 = kw.1 /\ represents a b h kt.2 kw.2) ts items
  | TList ts =>
      exists l elems, v = VRef l /\ a <= l < b /\ h !! l = Some (OList elems) /\
        all2 (represents a b h) ts elems
  end.

(** [reaches h v l]: the object at [l] is [v] itself or nested in it. *)
Inductive reaches (h : list obj) : val -> loc -> Prop :=
| reaches_here l : reaches h (VRef l) l
| reaches_dict l items k w l' :
    h !! l = Some (ODict items) -> (k, w) ∈ items -> reaches h w l' ->
    reaches h (VRef l) l'
| reaches_list l elems w l' :
    h !! l = Some (OList elems) -> w ∈ elems -> reaches h w l' ->
    reaches h (VRef l) l'.

(** Reading a value back as a tree, to a given nesting depth. *)
Fixpoint read_back (depth : nat) (h : list obj) (v : val) : option tree :=
  match v with
  | VFloat x => Some (TFloat x)
  | VStr s => Some (TStr s)
  | VNone => Some TNone
  | VRef l =>
      match depth with
      | 0 => None
      | S n =>
          match h !! l with
          | Some (ODict items) =>
              TDict <$> mapM (fun kw => pair kw.1 <$> read_back n h kw.2) items
          | Some (OList elems) => TList <$> mapM (read_back n h) elems
          | None => None
          end
      end
  end.

Fixpoint height (t : tree) : nat :=
  match t with
  | TDict ts => S (foldr (fun kt n => Nat.max (height kt.2) n) 0 ts)
  | TList ts => S (foldr (fun t' n => Nat.max (height t') n) 0 ts)
  | _ => 0
  end.

(** ** What it means for a call to have built a value

    [built h t r]: started on heap [h], a computation returned the pair
    [r] of a value and a heap; the heap is [h] with new objects appended,
    and the value stands for [t] and is made of those new objects only. *)

Definition built (h : list obj) (t : tree) (r : val * list obj) : Prop :=
  exists new, r.2 = h ++ new /\
    represents (length h) (length h + length new) (h ++ new) t r.1.

Definition built_items (h : list obj) (ts : list (string * tree))
    (r : list (string * val) * list obj) : Prop :=
  exists new, r.2 = h ++ new /\
    all2 (fun kt kw => kt.1 = kw.1 /\
            represents (length h) (length h + length new) (h ++ new) kt.2 kw.2)
         ts r.1.


(** The keys of the mapping reached from [v] by a chain of subscripts. *)
Definition keys_at (h : list obj) (v : val) (path : list string) : option (list string) :=
  match getitem_path h v path with
  | Ok w => dict_keys h w
  | Raise _ => None
  end.

(** The six classes [data.py] declares. *)
Definition data_classes : list pyclass :=
  [ dc_class InputData; dc_class OutputData; dc_class EnergyTechnicalData;
    dc_class FinancialData; dc_class TechnologySpecificData;
    dc_class PlantConfiguration ].

(** Where the optional heat percentage sits in a configuration. *)
Definition heat_path : list string :=
  ["energy_technical"; "input"; "heat_pct_total_input_mwh"].

(** How a field value appears in a mapping: [asdict] returns a float, a
    string or [None] unchanged. *)
Definition py_optional_val (o : option float) : val :=
  match o with
  | Some x => VFloat x
  | None => VNone
  end.

(** The script that constructs [self] as an instance of [cls] from the
    keyword arguments and then runs [self.attr = value]: the statement
    that raised, if any, with its exception, and the object afterwards
    when it was constructed.  Python compiles an attribute assignment
    without looking at the class, so nothing can fail before the script
    runs. *)
Inductive phase :=
| Construction
| Assignment.

Definition construct_then_assign (cls : pyclass) (kwargs : list (string * pyval))
    (attr : string) (value : pyval) : option (phase * exn) * option pyval :=
  match dataclass_init cls kwargs with
  | Raise e => (Some (Construction, e), None)
  | Ok self =>
      match assign_attr self attr value with
      | (Some e, self') => (Some (Assignment, e), Some self')
      | (None, self') => (None, Some self')
      end
  end.

(** The fields of a record, nested ones included: every chain of attribute
    names that ends in a float, a string or [None]. *)
Fixpoint leaf_paths (v : pyval) : list (list string) :=
  match v with
  | PyInstance _ attrs =>
      flat_map (fun kv => map (cons kv.1) (leaf_paths kv.2)) attrs
  | _ => [[]]
  end.

(** The heap value of a float, a string or [None]. *)
Definition atom_val (y : pyval) : option val :=
  match y with
  | PyFloat x => Some (VFloat x)
  | PyStr t => Some (VStr t)
  | PyNone => Some VNone
  | PyInstance _ _ => None
  end.

(** ** Further generated methods and observations *)

Fixpoint attrs_remove (k : string) (attrs : list (string * pyval))
  : list (string * pyval) :=
  match attrs with
  | [] => []
  | (k', v') :: rest =>
      if String.eqb k k' then rest else (k', v') :: attrs_remove k rest
  end.

(** [type(self).__delattr__(self, attr)]: refused on a frozen class, as
    [__setattr__] is; otherwise the attribute is removed if it is there. *)
Definition dataclass_delattr (self : pyval) (attr : string) : result pyval :=
  match self with
  | PyInstance cls attrs =>
      if cls_frozen cls
      then Raise (FrozenInstanceError ("cannot delete field '" +:+ attr +:+ "'"))
      else match kwargs_get attr attrs with
           | Some _ => Ok (PyInstance cls (attrs_remove attr attrs))
           | None => Raise (AttributeError attr)
           end
  | _ => Raise (AttributeError attr)
  end.

(** The statement [del self.attr]: the exception it raises, if any, and the
    object afterwards. *)
Definition del_attr (self : pyval) (attr : string) : option exn * pyval :=
  match dataclass_delattr self attr with
  | Ok self' => (None, self')
  | Raise e => (Some e, self)
  end.

(** The number of dataclass instances in a value, itself included: one
    [dict] is built for each. *)
Fixpoint instances (v : pyval) : nat :=
  match v with
  | PyInstance _ attrs => S (foldr (fun kv n => instances kv.2 + n) 0 attrs)
  | _ => 0
  end.

(** The floats stored in a value, nested ones included. *)
Fixpoint float_leaves (v : pyval) : list float :=
  match v with
  | PyFloat x => [x]
  | PyInstance _ attrs => flat_map (fun kv => float_leaves kv.2) attrs
  | _ => []
  end.

(** Reading a mapping back as keyword arguments, as a call of the class with
    the dict unpacked passes them: the items of the dict in order, when each value is a float, a
    string or [None]. *)
Definition val_atom (w : val) : option pyval :=
  match w with
  | VFloat x => Some (PyFloat x)
  | VStr t => Some (PyStr t)
  | VNone => Some PyNone
  | VRef _ => None
  end.

Definition dict_kwargs (h : list obj) (v : val) : option (list (string * pyval)) :=
  match v with
  | VRef l =>
      match h !! l with
      | Some (ODict items) => mapM (fun kw => pair kw.1 <$> val_atom kw.2) items
      | _ => None
      end
  | _ => None
  end.

(** The three shares of the output energy, added in field order. *)
Definition output_pct_sum (o : OutputData) : float :=
  (hydrogen_output_pct_total_output_mwh o + oxygen_output_pct_total_output_mwh o
   + heat_output_pct_total_output_mwh o)%float.

(** [rebuilds x h]: the dict [asdict] builds for [x] on heap [h], passed
    back to the class as keyword arguments, constructs [x] again. *)
Definition rebuilds {A} `{Dataclass A} (x : A) (h : list obj) : Prop :=
  exists kwargs,
    dict_kwargs (asdict x h).2 (asdict x h).1 = Some kwargs /\
    dataclass_init (dc_class A) kwargs = Ok (to_py x).

(** Evaluates [asdict] on a record whose fields are all atoms, reads the
    new dict back and runs the constructor on it. *)
Ltac rebuild_flat_record :=
  eexists; split;
  [ cbn [asdict asdict_inner to_py dc_attrs fst snd bind ret alloc dict_kwargs
         py_optional_float heat_pct_total_input_mwh InputData_dataclass OutputData_dataclass
         FinancialData_dataclass TechnologySpecificData_dataclass];
    rewrite list_lookup_middle by done; reflexivity
  | reflexivity ].

(** * Properties *)

(** ** Induction principles for the nested types *)

Lemma tree_nested_ind (P : tree -> Prop) :
  (forall x, P (TFloat x)) ->
  (forall s, P (TStr s)) ->
  P TNone ->
  (forall items, Forall (fun kt => P kt.2) items -> P (TDict items)) ->
  (forall elems, Forall P elems -> P (TList elems)) ->
  forall t, P t.
Proof.
  intros Hf Hs Hn Hd Hl. fix IH 1.
  intros [x|s| |items|elems]; [apply Hf | apply Hs | apply Hn | |].
  - apply Hd. induction items as [|[k t] items IHi]; constructor; [apply IH | exact IHi].
  - apply Hl. induction elems as [|t elems IHe]; constructor; [apply IH | exact IHe].
Qed.

Lemma pyval_nested_ind (P : pyval -> Prop) :
  (forall x, P (PyFloat x)) ->
  (forall s, P (PyStr s)) ->
  P PyNone ->
  (forall cls attrs, Forall (fun kv => P kv.2) attrs -> P (PyInstance cls attrs)) ->
  forall v, P v.
Proof.
  intros Hf Hs Hn Hi. fix IH 1.
  intros [x|s| |cls attrs]; [apply Hf | apply Hs | apply Hn |].
  apply Hi. induction attrs as [|[k a] attrs IHa]; constructor; [apply IH | exact IHa].
Qed.

(** ** Pointwise relations on lists *)

Lemma all2_Forall2 {A B} (P : A -> B -> Prop) xs ys :
  all2 P xs ys <-> Forall2 P xs ys.
Proof.
  revert ys. induction xs as [|x xs IH]; intros [|y ys]; simpl.
  - split; [constructor | done].
  - split; [done | inversion 1].
  - split; [done | inversion 1].
  - rewrite IH. split.
    + intros [? ?]. by constructor.
    + inversion 1; subst. done.
Qed.

Lemma all2_impl {A B} (P Q : A -> B -> Prop) xs ys :
  Forall (fun x => forall y, P x y -> Q x y) xs -> all2 P xs ys -> all2 Q xs ys.
Proof.
  intros HF. revert ys. induction HF as [|x xs Hx _ IH]; intros [|y ys]; simpl; try done.
  intros [? ?]. split; auto.
Qed.

(** ** The frame property of [represents] *)

Lemma represents_frame a b h a' b' h' t v :
  a' <= a -> b <= b' ->
  (forall l, a <= l < b -> h' !! l = h !! l) ->
  represents a b h t v -> represents a' b' h' t v.
Proof.
  intros Ha Hb Hagree. revert v.
  induction t as [x|s| |items IH|elems IH] using tree_nested_ind; simpl; try done.
  - intros v (l & kws & -> & Hl & Hlk & Hall).
    exists l, kws. repeat split; [lia | lia | by rewrite Hagree |].
    revert Hall. apply all2_impl.
    eapply Forall_impl; [exact IH|]. simpl. intros kt Hkt kw [? ?]. auto.
  - intros v (l & ws & -> & Hl & Hlk & Hall).
    exists l, ws. repeat split; [lia | lia | by rewrite Hagree |].
    revert Hall. apply all2_impl. exact IH.
Qed.

Lemma represents_app a b h new t v :
  b <= length h -> represents a b h t v -> represents a b (h ++ new) t v.
Proof.
  intros Hb. apply represents_frame; [lia | lia |].
  intros l Hl. apply lookup_app_l. lia.
Qed.

(** ** What [asdict] builds

    Run on any heap, [asdict_inner v] leaves the existing objects alone,
    appends new ones, and returns a value that stands for
    [nested_mapping v] and is made of the new objects only. *)

Lemma asdict_inner_instance cls attrs h :
  asdict_inner (PyInstance cls attrs) h =
    let (items, h1) := asdict_items attrs h in (VRef (length h1), h1 ++ [ODict items]).
Proof.
  change (asdict_inner (PyInstance cls attrs) h)
    with (bind (asdict_items attrs)
            (fun items => bind (alloc (ODict items)) (fun l => ret (VRef l))) h).
  unfold bind, ret, alloc.
  destruct (asdict_items attrs h) as [items h1]. reflexivity.
Qed.

Lemma asdict_items_cons k a attrs h :
  asdict_items ((k, a) :: attrs) h =
    let (w, h1) := asdict_inner a h in
    let (rest, h2) := asdict_items attrs h1 in
    ((k, w) :: rest, h2).
Proof.
  change (asdict_items ((k, a) :: attrs) h)
    with (bind (asdict_inner a)
            (fun w => bind (asdict_items attrs) (fun rest => ret ((k, w) :: rest))) h).
  unfold bind, ret.
  destruct (asdict_inner a h) as [w h1].
  destruct (asdict_items attrs h1) as [rest h2]. reflexivity.
Qed.

Lemma asdict_items_built attrs :
  Forall (fun kv => forall h, built h (nested_mapping kv.2) (asdict_inner kv.2 h)) attrs ->
  forall h, built_items h (map (fun kv => (kv.1, nested_mapping kv.2)) attrs)
              (asdict_items attrs h).
Proof.
  induction 1 as [|[k a] attrs Ha _ IH]; intros h.
  - exists []. simpl. by rewrite app_nil_r.
  - rewrite asdict_items_cons. simpl in Ha.
    destruct (Ha h) as (new1 & E1 & R1).
    destruct (asdict_inner a h) as [w h1]. simpl in E1, R1. subst h1.
    destruct (IH (h ++ new1)) as (new2 & E2 & R2).
    destruct (asdict_items attrs (h ++ new1)) as [rest h2]. simpl in E2, R2. subst h2.
    exists (new1 ++ new2). simpl. rewrite app_assoc. split; [done|].
    rewrite !length_app in *. repeat split.
    + eapply represents_frame; [| | |exact R1]; [lia | lia |].
      intros l Hl. apply lookup_app_l. rewrite length_app. lia.
    + revert R2. apply all2_impl. apply Forall_forall. intros kt _ kw [? R].
      split; [done|]. eapply represents_frame; [| | |exact R]; [lia | lia | done].
Qed.

Lemma asdict_inner_built v h : built h (nested_mapping v) (asdict_inner v h).
Proof.
  revert h. induction v as [x|s| |cls attrs IH] using pyval_nested_ind; intros h;
    try (exists []; simpl; by rewrite app_nil_r).
  rewrite asdict_inner_instance.
  destruct (asdict_items_built attrs IH h) as (new & E & R).
  destruct (asdict_items attrs h) as [items h1]. simpl in E, R. subst h1.
  exists (new ++ [ODict items]). simpl. rewrite app_assoc. split; [done|].
  exists (length (h ++ new)), items.
  rewrite !length_app. simpl. repeat split; [lia | lia | |].
  - rewrite lookup_app_r by (rewrite length_app; lia).
    rewrite length_app, Nat.sub_diag. done.
  - revert R. apply all2_impl. apply Forall_forall. intros kt _ kw [? R].
    split; [done|]. eapply represents_frame; [| | |exact R]; [lia | lia |].
    intros l Hl. apply lookup_app_l. rewrite length_app. lia.
Qed.

Lemma asdict_each_cons c cs h :
  asdict_each (c :: cs) h =
    let (d, h1) := asdict c h in
    let (ds, h2) := asdict_each cs h1 in
    (d :: ds, h2).
Proof.
  simpl. unfold bind, ret.
  destruct (asdict c h) as [d h1].
  destruct (asdict_each cs h1) as [ds h2]. reflexivity.
Qed.

Lemma asdict_each_built cs h :
  exists new, (asdict_each cs h).2 = h ++ new /\
    all2 (represents (length h) (length h + length new) (h ++ new))
         (map (fun c => nested_mapping (to_py c)) cs) (asdict_each cs h).1.
Proof.
  revert h. induction cs as [|c cs IH]; intros h.
  - exists []. simpl. by rewrite app_nil_r.
  - rewrite asdict_each_cons.
    destruct (asdict_inner_built (to_py c) h) as (new1 & E1 & R1).
    unfold asdict. destruct (asdict_inner (to_py c) h) as [d h1].
    cbn [fst snd] in E1, R1. subst h1.
    destruct (IH (h ++ new1)) as (new2 & E2 & R2).
    destruct (asdict_each cs (h ++ new1)) as [ds h2]. cbn [fst snd] in E2, R2. subst h2.
    exists (new1 ++ new2). cbn [fst snd map all2]. rewrite app_assoc. split; [done|].
    rewrite !length_app in *. split.
    + eapply represents_frame; [| | |exact R1]; [lia | lia |].
      intros l Hl. apply lookup_app_l. rewrite length_app. lia.
    + revert R2. apply all2_impl. apply Forall_forall. intros t _ w R.
      eapply represents_frame; [| | |exact R]; [lia | lia | done].
Qed.

Lemma as_dict_list_unfold s :
  as_dict_list s =
    let (ds, h1) := asdict_each (plant_configurations s) (heap s) in
    (VRef (length h1),
     {| plant_configurations := plant_configurations s;
        heap := h1 ++ [OList ds];
        stdout := stdout s |}).
Proof.
  unfold as_dict_list, bind, ret, alloc.
  destruct (asdict_each (plant_configurations s) (heap s)) as [ds h1]. reflexivity.
Qed.

Lemma as_dict_list_plant_configurations s :
  plant_configurations (as_dict_list s).2 = plant_configurations s.
Proof.
  rewrite as_dict_list_unfold.
  by destruct (asdict_each (plant_configurations s) (heap s)).
Qed.

Lemma as_dict_list_stdout s : stdout (as_dict_list s).2 = stdout s.
Proof.
  rewrite as_dict_list_unfold.
  by destruct (asdict_each (plant_configurations s) (heap s)).
Qed.

Lemma as_dict_list_built s :
  built (heap s) (mapping_list (plant_configurations s))
        ((as_dict_list s).1, heap (as_dict_list s).2).
Proof.
  rewrite as_dict_list_unfold.
  destruct (asdict_each_built (plant_configurations s) (heap s)) as (new & E & R).
  destruct (asdict_each (plant_configurations s) (heap s)) as [ds h1].
  cbn [fst snd] in E, R. subst h1.
  exists (new ++ [OList ds]). cbn [fst snd heap]. rewrite app_assoc. split; [done|].
  exists (length (heap s ++ new)), ds.
  rewrite !length_app. cbn [length]. repeat split; [lia | lia | |].
  - rewrite lookup_app_r by (rewrite length_app; lia).
    rewrite length_app, Nat.sub_diag. done.
  - revert R. apply all2_impl. apply Forall_forall. intros t _ w R.
    eapply represents_frame; [| | |exact R]; [lia | lia |].
    intros l Hl. apply lookup_app_l. rewrite length_app. lia.
Qed.

(** ** Consequences of [represents] *)

Lemma represents_functional a b h t t' v :
  represents a b h t v -> represents a b h t' v -> t = t'.
Proof.
  revert t' v.
  induction t as [x|s| |items IH|elems IH] using tree_nested_ind;
    intros [x'|s'| |items'|elems'] v; simpl; intros H H';
    try congruence;
    try (destruct H as (l & ? & -> & _); congruence);
    try (destruct H' as (l & ? & -> & _); congruence).
  - destruct H as (l & kws & -> & _ & Hlk & Hall).
    destruct H' as (l' & kws' & [= <-] & _ & Hlk' & Hall').
    rewrite Hlk in Hlk'. injection Hlk' as <-. f_equal.
    clear Hlk. revert items' kws Hall Hall'.
    induction IH as [|[k t] items Ht _ IHi]; intros [|[k' t'] items'] [|[k0 w] kws];
      simpl; try done.
    intros [[E R] Hall] [[E' R'] Hall']. simpl in *. subst k k'.
    f_equal; [f_equal; eauto | eauto].
  - destruct H as (l & ws & -> & _ & Hlk & Hall).
    destruct H' as (l' & ws' & [= <-] & _ & Hlk' & Hall').
    rewrite Hlk in Hlk'. congruence.
  - destruct H as (l & ws & -> & _ & Hlk & Hall).
    destruct H' as (l' & ws' & [= <-] & _ & Hlk' & Hall').
    rewrite Hlk in Hlk'. congruence.
  - destruct H as (l & ws & -> & _ & Hlk & Hall).
    destruct H' as (l' & ws' & [= <-] & _ & Hlk' & Hall').
    rewrite Hlk in Hlk'. injection Hlk' as <-. f_equal.
    clear Hlk. revert elems' ws Hall Hall'.
    induction IH as [|t elems Ht _ IHe]; intros [|t' elems'] [|w ws]; simpl; try done.
    intros [R Hall] [R' Hall']. f_equal; eauto.
Qed.

Lemma all2_elem_of_r {A B} (P : A -> B -> Prop) xs ys y :
  all2 P xs ys -> y ∈ ys -> exists x, x ∈ xs /\ P x y.
Proof.
  revert ys. induction xs as [|x xs IH]; intros [|y' ys]; simpl; try done.
  - intros _ Hy. by apply elem_of_nil in Hy.
  - intros [HP Hall] Hy. apply elem_of_cons in Hy as [->|Hy].
    + exists x. split; [left | done].
    + destruct (IH _ Hall Hy) as (x' & ? & ?). exists x'. split; [by right | done].
Qed.

(** Everything nested in a represented value lies in its region. *)
Lemma represents_reaches a b h t v l :
  represents a b h t v -> reaches h v l -> a <= l < b.
Proof.
  intros R Hr. revert t R.
  induction Hr as [l|l items k w l' Hlk Hin _ IH|l elems w l' Hlk Hin _ IH]; intros t R.
  - destruct t; simpl in R; try discriminate R;
      destruct R as (l0 & ? & E & Hl & _); injection E as <-; exact Hl.
  - destruct t as [| | |ts|ts]; simpl in R; try discriminate R;
      destruct R as (l0 & kws & E & _ & Hlk' & Hall); injection E as <-;
      rewrite Hlk in Hlk'; [|discriminate Hlk'].
    injection Hlk' as <-.
    destruct (all2_elem_of_r _ _ _ _ Hall Hin) as (kt & _ & _ & Rw).
    exact (IH _ Rw).
  - destruct t as [| | |ts|ts]; simpl in R; try discriminate R;
      destruct R as (l0 & ws & E & _ & Hlk' & Hall); injection E as <-;
      rewrite Hlk in Hlk'; [discriminate Hlk'|].
    injection Hlk' as <-.
    destruct (all2_elem_of_r _ _ _ _ Hall Hin) as (t' & _ & Rw).
    exact (IH _ Rw).
Qed.

(** A represented value reads back as its tree at any sufficient depth. *)
Lemma represents_read_back a b h t v n :
  represents a b h t v -> height t <= n -> read_back n h v = Some t.
Proof.
  revert v n.
  induction t as [x|s| |items IH|elems IH] using tree_nested_ind; intros v n;
    simpl; try (intros -> _; destruct n; reflexivity).
  - intros (l & kws & -> & _ & Hlk & Hall) Hn.
    destruct n as [|n]; [lia|]. simpl. rewrite Hlk.
    apply Nat.succ_le_mono in Hn.
    assert (mapM (fun kw => pair kw.1 <$> read_back n h kw.2) kws = Some items) as ->;
      [|reflexivity].
    apply mapM_Some. clear Hlk. revert kws Hall Hn.
    induction IH as [|[k t] items Ht _ IHi]; intros [|[k' w] kws]; simpl; try done.
    intros [[-> R] Hall] Hn. constructor.
    + simpl in *. rewrite (Ht w n R) by lia. reflexivity.
    + apply IHi; [done | lia].
  - intros (l & ws & -> & _ & Hlk & Hall) Hn.
    destruct n as [|n]; [lia|]. simpl. rewrite Hlk.
    apply Nat.succ_le_mono in Hn.
    assert (mapM (read_back n h) ws = Some elems) as ->; [|reflexivity].
    apply mapM_Some. clear Hlk. revert ws Hall Hn.
    induction IH as [|t elems Ht _ IHe]; intros [|w ws]; simpl; try done.
    intros [R Hall] Hn. constructor.
    + apply (Ht w n R). lia.
    + apply IHe; [done | lia].
Qed.

(** Subscripting a mapping follows attribute access on the record. *)
Lemma represents_getitem a b h cls attrs v k x :
  represents a b h (nested_mapping (PyInstance cls attrs)) v ->
  kwargs_get k attrs = Some x ->
  exists w, getitem_dict h v k = Ok w /\ represents a b h (nested_mapping x) w.
Proof.
  simpl. intros (l & items & -> & _ & Hlk & Hall) Hget.
  unfold getitem_dict, subscript. rewrite Hlk.
  assert (exists w, items_get k items = Some w /\ represents a b h (nested_mapping x) w)
    as (w & -> & R); [|eauto].
  clear Hlk. revert items Hall Hget.
  induction attrs as [|[k' a'] attrs IH]; intros [|[k0 w0] items]; simpl; try done.
  intros [[<- R] Hall]. destruct (String.eqb k k'); [|by apply IH].
  intros [= <-]. eauto.
Qed.

Lemma represents_getitem_path a b h path : forall x v y,
  represents a b h (nested_mapping x) v ->
  getattr_path x path = Ok y ->
  exists w, getitem_path h v path = Ok w /\ represents a b h (nested_mapping y) w.
Proof.
  induction path as [|k path IH]; intros x v y R; simpl.
  - intros [= <-]. eauto.
  - destruct (getattr x k) as [x'|e] eqn:Hx; [|discriminate]. intros Hy.
    unfold getattr in Hx. destruct x as [| | |cls attrs]; try discriminate.
    destruct (kwargs_get k attrs) as [x0|] eqn:Hk; [|discriminate].
    injection Hx as ->.
    destruct (represents_getitem _ _ _ _ _ _ _ _ R Hk) as (w' & -> & R').
    eauto.
Qed.

Lemma represents_getitem_list a b h ts v i t :
  represents a b h (TList ts) v -> ts !! i = Some t ->
  exists w, getitem_list h v i = Ok w /\ represents a b h t w.
Proof.
  simpl. intros (l & ws & -> & _ & Hlk & Hall) Hi.
  unfold getitem_list, subscript. rewrite Hlk.
  apply all2_Forall2 in Hall.
  destruct (Forall2_lookup_l _ _ _ _ _ Hall Hi) as (w & -> & R). eauto.
Qed.

Lemma represents_dict_keys a b h cls attrs v :
  represents a b h (nested_mapping (PyInstance cls attrs)) v ->
  dict_keys h v = Some attrs.*1.
Proof.
  simpl. intros (l & items & -> & _ & Hlk & Hall).
  unfold dict_keys. rewrite Hlk. f_equal.
  clear Hlk. revert items Hall.
  induction attrs as [|[k x] attrs IH]; intros [|[k' w] items]; simpl; try done.
  intros [[<- _] Hall]. f_equal. by apply IH.
Qed.

(** ** The catalog *)

Lemma main_plant_configurations s :
  plant_configurations (main s) = plant_configurations s.
Proof.
  pose proof (as_dict_list_plant_configurations s) as H. unfold main.
  destruct (as_dict_list s) as [r s1]. exact H.
Qed.

Lemma step_plant_configurations s s' :
  step s s' -> plant_configurations s' = plant_configurations s.
Proof.
  destruct 1.
  - apply as_dict_list_plant_configurations.
  - apply main_plant_configurations.
  - reflexivity.
Qed.

Lemma reachable_plant_configurations s :
  reachable s -> plant_configurations s = PLANT_CONFIGURATIONS.
Proof.
  induction 1 as [|s s' _ IH Hstep]; [reflexivity|].
  rewrite (step_plant_configurations _ _ Hstep). exact IH.
Qed.

(** C1: in every state the program can reach -- after any number of calls
    of [as_dict_list] and of [main], and whatever a caller stores into the
    mappings it was handed -- [PLANT_CONFIGURATIONS] holds exactly two
    entries, the AEC configuration at index 0 and the PEM configuration at
    index 1. *)
Theorem catalog_two_entries_fixed_order s :
  reachable s ->
  plant_configurations s = [AEC_100MW_ENS_2025; PEM_100MW_ENS_2025] /\
  length (plant_configurations s) = 2 /\
  plant_configurations s !! 0 = Some AEC_100MW_ENS_2025 /\
  plant_configurations s !! 1 = Some PEM_100MW_ENS_2025.
Proof.
  intros Hs. rewrite (reachable_plant_configurations s Hs). repeat split.
Qed.

Lemma catalog_two_entries_fixed_order_witness :
  reachable (store 12 (ODict []) (main (as_dict_list module_state).2)) /\
  plant_configurations (store 12 (ODict []) (main (as_dict_list module_state).2))
    = [AEC_100MW_ENS_2025; PEM_100MW_ENS_2025].
Proof.
  assert (reachable (store 12 (ODict []) (main (as_dict_list module_state).2))) as Hs.
  { eapply reachable_step; [eapply reachable_step; [eapply reachable_step|]|].
    - apply reachable_init.
    - apply step_as_dict_list.
    - apply step_main.
    - apply step_store. vm_compute. lia. }
  split; [exact Hs|].
  exact (proj1 (catalog_two_entries_fixed_order _ Hs)).
Defined.

(** C2: the first catalog entry is named "AEC 100 MW (ENS, 2025)", has a
    plant size of 100.0, no heat percentage ([None]), a hydrogen yield of
    20.00, a specific investment of 1161.3 per kW and a current density of
    0.5; each float is the literal's value and compares equal to it with
    Python's [==]. *)
Theorem aec_configuration_values :
  exists c, PLANT_CONFIGURATIONS !! 0 = Some c /\
    name c = "AEC 100 MW (ENS, 2025)" /\
    total_plant_size_mw_input_e (energy_technical c) = 100.0%float /\
    heat_pct_total_input_mwh (input (energy_technical c)) = None /\
    hydrogen_yield_kg_per_mwh_input_e (output (energy_technical c)) = 20.00%float /\
    specific_investment_eur_per_kw_total_input (financial c) = 1161.3%float /\
    current_density_a_per_cm2 (technology_specific c) = 0.5%float /\
    PrimFloat.eqb (total_plant_size_mw_input_e (energy_technical c)) 100.0 = true /\
    PrimFloat.eqb (hydrogen_yield_kg_per_mwh_input_e (output (energy_technical c))) 20.00
      = true /\
    PrimFloat.eqb (specific_investment_eur_per_kw_total_input (financial c)) 1161.3
      = true /\
    PrimFloat.eqb (current_density_a_per_cm2 (technology_specific c)) 0.5 = true.
Proof.
  exists AEC_100MW_ENS_2025. repeat split.
Qed.

(** C3: the second catalog entry is named "PEM 100 MW (ENS, 2025)", has a
    hydrogen yield of 20.95, a specific investment of 6876.8 per kg/h of
    hydrogen output and a stack replacement frequency of 6.0 years. *)
Theorem pem_configuration_values :
  exists c, PLANT_CONFIGURATIONS !! 1 = Some c /\
    name c = "PEM 100 MW (ENS, 2025)" /\
    hydrogen_yield_kg_per_mwh_input_e (output (energy_technical c)) = 20.95%float /\
    specific_investment_eur_per_kg_per_hour_hydrogen_output (financial c) = 6876.8%float /\
    frequency_of_stack_replacement_years (technology_specific c) = 6.0%float /\
    PrimFloat.eqb (hydrogen_yield_kg_per_mwh_input_e (output (energy_technical c))) 20.95
      = true /\
    PrimFloat.eqb (specific_investment_eur_per_kg_per_hour_hydrogen_output (financial c))
      6876.8 = true /\
    PrimFloat.eqb (frequency_of_stack_replacement_years (technology_specific c)) 6.0
      = true.
Proof.
  exists PEM_100MW_ENS_2025. repeat split.
Qed.

(** C9: every configuration of the catalog, the PEM one included, takes all
    of its input energy as electricity: the electricity percentage is
    100.0, the heat percentage is [None] (and so not a zero), and the heat
    loss percentage is 0.0. *)
Theorem input_is_all_electricity c :
  c ∈ PLANT_CONFIGURATIONS ->
  electricity_pct_total_input_mwh (input (energy_technical c)) = 100.0%float /\
  heat_pct_total_input_mwh (input (energy_technical c)) = None /\
  heat_pct_total_input_mwh (input (energy_technical c)) <> Some 0.0%float /\
  heat_loss_pct_total_input_mwh (input (energy_technical c)) = 0.0%float /\
  PrimFloat.eqb (electricity_pct_total_input_mwh (input (energy_technical c))) 100.0
    = true /\
  PrimFloat.eqb (heat_loss_pct_total_input_mwh (input (energy_technical c))) 0.0 = true.
Proof.
  unfold PLANT_CONFIGURATIONS. rewrite !elem_of_cons, elem_of_nil.
  intros [->|[->|[]]]; repeat split; discriminate.
Qed.

Lemma input_is_all_electricity_witness :
  PEM_100MW_ENS_2025 ∈ PLANT_CONFIGURATIONS /\
  electricity_pct_total_input_mwh (input (energy_technical PEM_100MW_ENS_2025))
    = 100.0%float /\
  heat_pct_total_input_mwh (input (energy_technical PEM_100MW_ENS_2025)) = None.
Proof.
  assert (PEM_100MW_ENS_2025 ∈ PLANT_CONFIGURATIONS) as Hin.
  { unfold PLANT_CONFIGURATIONS. apply elem_of_cons. right. apply elem_of_cons. by left. }
  pose proof (input_is_all_electricity PEM_100MW_ENS_2025 Hin) as (H1 & H2 & _).
  exact (conj Hin (conj H1 H2)).
Defined.

(** C10: two catalog entries have the same name exactly when they are the
    same entry, so the two names differ and a name identifies one
    configuration of the catalog. *)
Theorem name_identifies_configuration i j c1 c2 :
  PLANT_CONFIGURATIONS !! i = Some c1 ->
  PLANT_CONFIGURATIONS !! j = Some c2 ->
  (name c1 = name c2 <-> i = j) /\ (name c1 = name c2 -> c1 = c2).
Proof.
  unfold PLANT_CONFIGURATIONS.
  destruct i as [|[|i]], j as [|[|j]]; simpl; try discriminate;
    intros [= <-] [= <-]; (split; [split|]); try done; discriminate.
Qed.

Lemma name_identifies_configuration_witness :
  PLANT_CONFIGURATIONS !! 0 = Some AEC_100MW_ENS_2025 /\
  PLANT_CONFIGURATIONS !! 1 = Some PEM_100MW_ENS_2025 /\
  name AEC_100MW_ENS_2025 <> name PEM_100MW_ENS_2025.
Proof.
  split; [reflexivity|]. split; [reflexivity|].
  intros E.
  pose proof (proj1 (proj1 (name_identifies_configuration 0 1 _ _ eq_refl eq_refl)) E).
  discriminate.
Defined.

(** ** The mapping form *)

Lemma as_dict_list_heap s : exists new, heap (as_dict_list s).2 = heap s ++ new.
Proof. destruct (as_dict_list_built s) as (new & E & _). eauto. Qed.

(** The result of [as_dict_list] stands for the mapping list of the catalog
    and is made of objects that did not exist before the call. *)
Lemma as_dict_list_represents s :
  represents (length (heap s)) (length (heap (as_dict_list s).2))
    (heap (as_dict_list s).2) (mapping_list (plant_configurations s)) (as_dict_list s).1.
Proof.
  destruct (as_dict_list_built s) as (new & E & R). cbn [fst snd] in E, R.
  rewrite E, length_app. exact R.
Qed.

Lemma represents_leaf a b h y w :
  represents a b h (nested_mapping y) w ->
  match y with
  | PyFloat x => w = VFloat x
  | PyStr t => w = VStr t
  | PyNone => w = VNone
  | PyInstance _ _ =>
      forall n, height (nested_mapping y) <= n -> read_back n h w = Some (nested_mapping y)
  end.
Proof.
  destruct y; try done. intros R n Hn. by eapply represents_read_back.
Qed.

Lemma heat_path_getattr c :
  getattr_path (to_py c) heat_path
    = Ok (py_optional_float (heat_pct_total_input_mwh (input (energy_technical c)))).
Proof. reflexivity. Qed.

(** C4: after [as_dict_list], for every configuration [c] at index [i] of
    the catalog, the [i]-th mapping [d] exists and every field of [c],
    at any nesting depth, read from [d] by the same chain of keys, is
    there ([Ok], so no [KeyError]) and is the record's value: the same
    float, string or [None], or, for a nested record, a mapping that reads
    back as that record's mapping.  This covers each of the fields listed
    by [leaf_paths].  In particular the heat percentage, [None] in the
    record, is [None] in the mapping, neither a zero nor left out. *)
Theorem as_dict_list_round_trip s i c :
  plant_configurations s !! i = Some c ->
  exists d,
    getitem_list (heap (as_dict_list s).2) (as_dict_list s).1 i = Ok d /\
    (forall path y,
       getattr_path (to_py c) path = Ok y ->
       exists w,
         getitem_path (heap (as_dict_list s).2) d path = Ok w /\
         match y with
         | PyFloat x => w = VFloat x
         | PyStr t => w = VStr t
         | PyNone => w = VNone
         | PyInstance _ _ =>
             forall n, height (nested_mapping y) <= n ->
               read_back n (heap (as_dict_list s).2) w = Some (nested_mapping y)
         end) /\
    Forall (fun path =>
              exists y w,
                getattr_path (to_py c) path = Ok y /\
                getitem_path (heap (as_dict_list s).2) d path = Ok w /\
                atom_val y = Some w)
           (leaf_paths (to_py c)) /\
    getitem_path (heap (as_dict_list s).2) d heat_path
      = Ok (py_optional_val (heat_pct_total_input_mwh (input (energy_technical c)))).
Proof.
  intros Hi.
  pose proof (as_dict_list_represents s) as R.
  assert (map (fun c => nested_mapping (to_py c)) (plant_configurations s) !! i
          = Some (nested_mapping (to_py c))) as Hti.
  { by rewrite list_lookup_fmap, Hi. }
  destruct (represents_getitem_list _ _ _ _ _ _ _ R Hti) as (d & Hd & Rd).
  assert (forall path y,
            getattr_path (to_py c) path = Ok y ->
            exists w,
              getitem_path (heap (as_dict_list s).2) d path = Ok w /\
              match y with
              | PyFloat x => w = VFloat x
              | PyStr t => w = VStr t
              | PyNone => w = VNone
              | PyInstance _ _ =>
                  forall n, height (nested_mapping y) <= n ->
                    read_back n (heap (as_dict_list s).2) w = Some (nested_mapping y)
              end) as Hpaths.
  { intros path y Hy.
    destruct (represents_getitem_path _ _ _ _ _ _ _ Rd Hy) as (w & Hw & Rw).
    exists w. split; [exact Hw|]. by apply represents_leaf in Rw. }
  exists d. split; [exact Hd|]. split; [exact Hpaths|]. split.
  - clear -Hpaths. generalize (heap (as_dict_list s).2) Hpaths. clear. intros h Hpaths.
    destruct c as [nm [sz od lt [el [ht|] hl wt] out] fin tech];
      repeat constructor;
      match goal with
      | |- exists y w, getattr_path ?v ?p = Ok y /\ _ =>
          let w := fresh "w" in
          let Hw := fresh "Hw" in
          let Hleaf := fresh "Hleaf" in
          destruct (Hpaths p _ eq_refl) as (w & Hw & Hleaf);
          rewrite Hleaf in Hw;
          eexists _, _; split; [reflexivity | split; [exact Hw | reflexivity]]
      end.
  - destruct (Hpaths _ _ (heat_path_getattr c)) as (w & -> & Hleaf).
    f_equal. by destruct (heat_pct_total_input_mwh (input (energy_technical c))).
Qed.

Lemma as_dict_list_round_trip_witness :
  plant_configurations module_state !! 1 = Some PEM_100MW_ENS_2025 /\
  exists d,
    getitem_list (heap (as_dict_list module_state).2) (as_dict_list module_state).1 1
      = Ok d /\
    getitem_path (heap (as_dict_list module_state).2) d heat_path = Ok VNone.
Proof.
  split; [reflexivity|].
  destruct (as_dict_list_round_trip module_state 1 PEM_100MW_ENS_2025 eq_refl)
    as (d & Hd & _ & _ & Hheat).
  exists d. split; [exact Hd | exact Hheat].
Defined.

Lemma keys_at_fields {A} `{Dataclass A} a b h x d path (y : A) :
  represents a b h (nested_mapping x) d ->
  getattr_path x path = Ok (to_py y) ->
  keys_at h d path = Some (cls_fields (dc_class A)).
Proof.
  intros R Hp.
  destruct (represents_getitem_path _ _ _ _ _ _ _ R Hp) as (w & Hw & Rw).
  unfold keys_at. rewrite Hw, <- (dc_attrs_fields y).
  by eapply represents_dict_keys.
Qed.

(** C5: [as_dict_list] returns a list that reads back as the list of the
    nested mappings of the configurations, in catalog order (one mapping
    per configuration, nested records as nested mappings, every other value
    the record's own); the keys of each mapping, at every level, are the
    declared field names of the record's class, in order; and the call
    changes neither the catalog nor the output nor any object that existed
    before it. *)
Theorem as_dict_list_nested_mappings s :
  (forall n, height (mapping_list (plant_configurations s)) <= n ->
     read_back n (heap (as_dict_list s).2) (as_dict_list s).1
       = Some (mapping_list (plant_configurations s))) /\
  (forall i c, plant_configurations s !! i = Some c ->
     exists d,
       getitem_list (heap (as_dict_list s).2) (as_dict_list s).1 i = Ok d /\
       keys_at (heap (as_dict_list s).2) d []
         = Some (cls_fields (dc_class PlantConfiguration)) /\
       keys_at (heap (as_dict_list s).2) d ["energy_technical"]
         = Some (cls_fields (dc_class EnergyTechnicalData)) /\
       keys_at (heap (as_dict_list s).2) d ["energy_technical"; "input"]
         = Some (cls_fields (dc_class InputData)) /\
       keys_at (heap (as_dict_list s).2) d ["energy_technical"; "output"]
         = Some (cls_fields (dc_class OutputData)) /\
       keys_at (heap (as_dict_list s).2) d ["financial"]
         = Some (cls_fields (dc_class FinancialData)) /\
       keys_at (heap (as_dict_list s).2) d ["technology_specific"]
         = Some (cls_fields (dc_class TechnologySpecificData))) /\
  plant_configurations (as_dict_list s).2 = plant_configurations s /\
  stdout (as_dict_list s).2 = stdout s /\
  (exists new, heap (as_dict_list s).2 = heap s ++ new).
Proof.
  pose proof (as_dict_list_represents s) as R.
  split; [|split; [|split; [|split]]].
  - intros n Hn. by eapply represents_read_back.
  - intros i c Hi.
    assert (map (fun c => nested_mapping (to_py c)) (plant_configurations s) !! i
            = Some (nested_mapping (to_py c))) as Hti.
    { by rewrite list_lookup_fmap, Hi. }
    destruct (represents_getitem_list _ _ _ _ _ _ _ R Hti) as (d & Hd & Rd).
    exists d. split; [exact Hd|].
    repeat split; (eapply keys_at_fields; [exact Rd | reflexivity]).
  - apply as_dict_list_plant_configurations.
  - apply as_dict_list_stdout.
  - apply as_dict_list_heap.
Qed.

(** ** Calling the accessor again *)

Lemma represents_store_outside a b h t v l o :
  l < a \/ b <= l -> represents a b h t v -> represents a b (<[l := o]> h) t v.
Proof.
  intros Hl. apply represents_frame; [lia | lia |].
  intros l' Hl'. apply list_lookup_insert_ne. lia.
Qed.

(** Two successive results stand for the same tree in the final heap and
    occupy two adjacent, disjoint regions of it. *)
Lemma as_dict_list_twice_regions s :
  let s1 := (as_dict_list s).2 in
  let s2 := (as_dict_list s1).2 in
  represents (length (heap s)) (length (heap s1)) (heap s2)
    (mapping_list (plant_configurations s)) (as_dict_list s).1 /\
  represents (length (heap s1)) (length (heap s2)) (heap s2)
    (mapping_list (plant_configurations s)) (as_dict_list s1).1.
Proof.
  cbv zeta.
  pose proof (as_dict_list_represents s) as R1.
  pose proof (as_dict_list_represents (as_dict_list s).2) as R2.
  rewrite as_dict_list_plant_configurations in R2.
  split; [|exact R2].
  destruct (as_dict_list_heap (as_dict_list s).2) as (new & E). rewrite E.
  by apply represents_app.
Qed.

(** C6: two successive calls of [as_dict_list] return values that read back
    as the same tree (structural equality); no object belongs to both
    results; and replacing the contents of any object of one result -- the
    list or a mapping at any depth -- leaves what the other result reads
    back as, and the catalog, unchanged. *)
Theorem as_dict_list_twice_independent s :
  let r1 := (as_dict_list s).1 in
  let s1 := (as_dict_list s).2 in
  let r2 := (as_dict_list s1).1 in
  let s2 := (as_dict_list s1).2 in
  let t := mapping_list (plant_configurations s) in
  (forall n, height t <= n ->
     read_back n (heap s2) r1 = Some t /\ read_back n (heap s2) r2 = Some t) /\
  (forall l, reaches (heap s2) r1 l -> ~ reaches (heap s2) r2 l) /\
  (forall l o n, reaches (heap s2) r1 l -> height t <= n ->
     read_back n (heap (store l o s2)) r2 = Some t /\
     plant_configurations (store l o s2) = plant_configurations s) /\
  (forall l o n, reaches (heap s2) r2 l -> height t <= n ->
     read_back n (heap (store l o s2)) r1 = Some t /\
     plant_configurations (store l o s2) = plant_configurations s).
Proof.
  intros r1 s1 r2 s2 t.
  destruct (as_dict_list_twice_regions s) as [R1 R2].
  change (represents (length (heap s)) (length (heap s1)) (heap s2) t r1) in R1.
  change (represents (length (heap s1)) (length (heap s2)) (heap s2) t r2) in R2.
  assert (plant_configurations s2 = plant_configurations s) as Hcat.
  { unfold s2, s1. by rewrite !as_dict_list_plant_configurations. }
  split; [|split; [|split]].
  - intros n Hn. split; by eapply represents_read_back.
  - intros l Hl1 Hl2.
    pose proof (represents_reaches _ _ _ _ _ _ R1 Hl1) as B1.
    pose proof (represents_reaches _ _ _ _ _ _ R2 Hl2) as B2.
    clear -B1 B2. lia.
  - intros l o n Hl Hn. split; [|exact Hcat].
    pose proof (represents_reaches _ _ _ _ _ _ R1 Hl) as B1.
    eapply represents_read_back; [|exact Hn].
    apply represents_store_outside; [|exact R2]. clear -B1. lia.
  - intros l o n Hl Hn. split; [|exact Hcat].
    pose proof (represents_reaches _ _ _ _ _ _ R2 Hl) as B2.
    eapply represents_read_back; [|exact Hn].
    apply represents_store_outside; [|exact R1]. clear -B2. lia.
Qed.

(** ** Determinism *)

(** C8: in any two states the program can reach -- whatever calls and
    stores led there, in whatever order and however often -- the catalog
    reads the same, [PLANT_CONFIGURATIONS], and [as_dict_list] returns a
    value that reads back as the same tree, the mapping list of
    [PLANT_CONFIGURATIONS]; the call leaves the catalog, the output and
    every existing object as they were. *)
Theorem accessors_deterministic s1 s2 :
  reachable s1 -> reachable s2 ->
  plant_configurations s1 = PLANT_CONFIGURATIONS /\
  plant_configurations s2 = plant_configurations s1 /\
  (forall n, 4 <= n ->
     read_back n (heap (as_dict_list s1).2) (as_dict_list s1).1
       = Some (mapping_list PLANT_CONFIGURATIONS) /\
     read_back n (heap (as_dict_list s2).2) (as_dict_list s2).1
       = read_back n (heap (as_dict_list s1).2) (as_dict_list s1).1) /\
  plant_configurations (as_dict_list s1).2 = plant_configurations s1 /\
  stdout (as_dict_list s1).2 = stdout s1 /\
  (exists new, heap (as_dict_list s1).2 = heap s1 ++ new).
Proof.
  intros H1 H2.
  pose proof (reachable_plant_configurations _ H1) as E1.
  pose proof (reachable_plant_configurations _ H2) as E2.
  split; [exact E1|]. split; [congruence|]. split; [|split; [|split]].
  - intros n Hn.
    pose proof (as_dict_list_represents s1) as R1.
    pose proof (as_dict_list_represents s2) as R2.
    rewrite E1 in R1. rewrite E2 in R2.
    rewrite (represents_read_back _ _ _ _ _ n R1) by exact Hn.
    rewrite (represents_read_back _ _ _ _ _ n R2) by exact Hn. done.
  - apply as_dict_list_plant_configurations.
  - apply as_dict_list_stdout.
  - apply as_dict_list_heap.
Qed.

Lemma accessors_deterministic_witness :
  reachable module_state /\
  reachable (store 12 (OList []) (main module_state)) /\
  plant_configurations (store 12 (OList []) (main module_state))
    = plant_configurations module_state /\
  read_back 4 (heap (as_dict_list (store 12 (OList []) (main module_state))).2)
      (as_dict_list (store 12 (OList []) (main module_state))).1
    = read_back 4 (heap (as_dict_list module_state).2) (as_dict_list module_state).1.
Proof.
  assert (reachable (store 12 (OList []) (main module_state))) as Hs.
  { eapply reachable_step; [eapply reachable_step|].
    - apply reachable_init.
    - apply step_main.
    - apply step_store. vm_compute. lia. }
  split; [apply reachable_init|]. split; [exact Hs|].
  destruct (accessors_deterministic module_state _ reachable_init Hs)
    as (_ & Hcat & Hread & _).
  split; [exact Hcat|]. exact (proj2 (Hread 4 (le_n 4))).
Defined.

(** ** Frozen records *)

Lemma dataclass_init_instance cls kwargs self :
  dataclass_init cls kwargs = Ok self -> exists attrs, self = PyInstance cls attrs.
Proof.
  unfold dataclass_init.
  destruct (List.find _ kwargs); [discriminate|].
  destruct (bind_fields (cls_fields cls) kwargs) as [attrs|]; [|discriminate].
  intros [= <-]. eauto.
Qed.

Lemma data_classes_frozen cls : cls ∈ data_classes -> cls_frozen cls = true.
Proof.
  unfold data_classes. rewrite !elem_of_cons, elem_of_nil.
  intros [->|[->|[->|[->|[->|[->|[]]]]]]]; reflexivity.
Qed.

(** C7, as the code has it: constructing an instance of any of the six
    classes succeeds, and an assignment to a field of the constructed
    record fails when it is executed, at run time, with
    [FrozenInstanceError], leaving the record as it was; and no
    transition of the program changes a record of the catalog. *)
Theorem frozen_record_rejects_assignment cls kwargs self attr value s s' :
  cls ∈ data_classes ->
  dataclass_init cls kwargs = Ok self ->
  step s s' ->
  assign_attr self attr value
    = (Some (FrozenInstanceError ("cannot assign to field '" +:+ attr +:+ "'")), self) /\
  construct_then_assign cls kwargs attr value
    = (Some (Assignment, FrozenInstanceError ("cannot assign to field '" +:+ attr +:+ "'")),
       Some self) /\
  plant_configurations s' = plant_configurations s.
Proof.
  intros Hcls Hinit Hstep.
  destruct (dataclass_init_instance _ _ _ Hinit) as (attrs & ->).
  assert (assign_attr (PyInstance cls attrs) attr value
    = (Some (FrozenInstanceError ("cannot assign to field '" +:+ attr +:+ "'")),
       PyInstance cls attrs)) as Hassign.
  { unfold assign_attr, dataclass_setattr. by rewrite (data_classes_frozen _ Hcls). }
  split; [exact Hassign|]. split.
  - unfold construct_then_assign. by rewrite Hinit, Hassign.
  - by apply step_plant_configurations.
Qed.

Lemma frozen_record_rejects_assignment_witness :
  dc_class InputData ∈ data_classes /\
  dataclass_init (dc_class InputData)
      (dc_attrs (input (energy_technical AEC_100MW_ENS_2025)))
    = Ok (to_py (input (energy_technical AEC_100MW_ENS_2025))) /\
  step module_state (main module_state) /\
  assign_attr (to_py (input (energy_technical AEC_100MW_ENS_2025)))
      "heat_pct_total_input_mwh" (PyFloat 0)
    = (Some (FrozenInstanceError "cannot assign to field 'heat_pct_total_input_mwh'"),
       to_py (input (energy_technical AEC_100MW_ENS_2025))).
Proof.
  assert (dc_class InputData ∈ data_classes) as Hcls by (unfold data_classes; left).
  split; [exact Hcls|]. split; [reflexivity|]. split; [apply step_main|].
  exact (proj1 (frozen_record_rejects_assignment
                  (dc_class InputData)
                  (dc_attrs (input (energy_technical AEC_100MW_ENS_2025)))
                  (to_py (input (energy_technical AEC_100MW_ENS_2025)))
                  "heat_pct_total_input_mwh" (PyFloat 0) _ _
                  Hcls eq_refl (step_main module_state))).
Defined.

(** C7 as stated fails: the AEC record is constructed without any failure,
    and the assignment to its [name] is what raises, when it is executed;
    the script does not fail at construction. *)
Lemma assignment_fails_at_run_time_not_at_construction :
  dataclass_init (dc_class PlantConfiguration) (dc_attrs AEC_100MW_ENS_2025)
    = Ok (to_py AEC_100MW_ENS_2025) /\
  (construct_then_assign (dc_class PlantConfiguration) (dc_attrs AEC_100MW_ENS_2025)
     "name" (PyStr "PEM 100 MW (ENS, 2025)")).1
    = Some (Assignment, FrozenInstanceError "cannot assign to field 'name'") /\
  (construct_then_assign (dc_class PlantConfiguration) (dc_attrs AEC_100MW_ENS_2025)
     "name" (PyStr "PEM 100 MW (ENS, 2025)")).1
    <> Some (Construction, FrozenInstanceError "cannot assign to field 'name'").
Proof.
  split; [reflexivity|]. split; [reflexivity|]. discriminate.
Qed.

(** ** The model on the loaded module *)

Example as_dict_list_allocates_thirteen_objects :
  (as_dict_list module_state).1 = VRef 12 /\
  length (heap (as_dict_list module_state).2) = 13.
Proof. split; reflexivity. Qed.

Example aec_mapping_reads :
  let h := heap (as_dict_list module_state).2 in
  getitem_list h (VRef 12) 0 = Ok (VRef 5) /\
  getitem_path h (VRef 5) ["name"] = Ok (VStr "AEC 100 MW (ENS, 2025)") /\
  getitem_path h (VRef 5) ["energy_technical"; "output"; "hydrogen_yield_kg_per_mwh_input_e"]
    = Ok (VFloat 20.00) /\
  getitem_path h (VRef 5) ["financial"; "specific_investment_eur_per_kw_total_input"]
    = Ok (VFloat 1161.3) /\
  getitem_path h (VRef 5) heat_path = Ok VNone /\
  getitem_path h (VRef 5) ["energy_technical"; "heat_pct_total_input_mwh"]
    = Raise (KeyError (KStr "heat_pct_total_input_mwh")).
Proof. repeat split. Qed.

Example pem_mapping_reads :
  let h := heap (as_dict_list module_state).2 in
  getitem_list h (VRef 12) 1 = Ok (VRef 11) /\
  getitem_list h (VRef 12) 2 = Raise IndexError /\
  getitem_path h (VRef 11) ["name"] = Ok (VStr "PEM 100 MW (ENS, 2025)") /\
  getitem_path h (VRef 11)
      ["technology_specific"; "frequency_of_stack_replacement_years"]
    = Ok (VFloat 6.0) /\
  getitem_path h (VRef 11) heat_path = Ok VNone.
Proof. repeat split. Qed.

Example aec_record_fields :
  leaf_paths (to_py AEC_100MW_ENS_2025) =
    [ ["name"];
      ["energy_technical"; "total_plant_size_mw_input_e"];
      ["energy_technical"; "planned_outage_days_per_annum"];
      ["energy_technical"; "technical_lifetime_years"];
      ["energy_technical"; "input"; "electricity_pct_total_input_mwh"];
      ["energy_technical"; "input"; "heat_pct_total_input_mwh"];
      ["energy_technical"; "input"; "heat_loss_pct_total_input_mwh"];
      ["energy_technical"; "input"; "water_for_electrolysis_kg_per_mwh_input"];
      ["energy_technical"; "output"; "hydrogen_output_pct_total_output_mwh"];
      ["energy_technical"; "output"; "hydrogen_ch2_pct_total_output"];
      ["energy_technical"; "output";
       "hydrogen_for_district_heating_pct_points_of_heat_loss"];
      ["energy_technical"; "output"; "oxygen_output_pct_total_output_mwh"];
      ["energy_technical"; "output";
       "oxygen_recovered_for_district_heating_pct_points_of_heat_loss"];
      ["energy_technical"; "output"; "heat_output_pct_total_output_mwh"];
      ["energy_technical"; "output"; "hydrogen_yield_kg_per_mwh_input_e"];
      ["energy_technical"; "output"; "oxygen_yield_kg_per_mwh_input_e"];
      ["financial"; "specific_investment_eur_per_kw_total_input"];
      ["financial"; "specific_investment_eur_per_kg_per_hour_hydrogen_output"];
      ["financial"; "o_and_m_pct_of_specific_investment_per_year"];
      ["technology_specific"; "current_density_a_per_cm2"];
      ["technology_specific"; "footprint_m2_per_mw_input_e"];
      ["technology_specific"; "degradation_rate_pct_per_annum"];
      ["technology_specific"; "frequency_of_stack_replacement_years"] ].
Proof. reflexivity. Qed.

(** A class declared without [frozen=True] would accept the assignment:
    the rejection comes from the decorator's argument. *)
Example unfrozen_class_accepts_assignment :
  assign_attr
      (PyInstance {| cls_name := "C"; cls_frozen := false; cls_fields := ["x"] |}
                  [("x", PyNone)])
      "x" (PyStr "new")
    = (None,
       PyInstance {| cls_name := "C"; cls_frozen := false; cls_fields := ["x"] |}
                  [("x", PyStr "new")]).
Proof. reflexivity. Qed.

Lemma as_dict_list_twice_independent_witness :
  let s1 := (as_dict_list module_state).2 in
  let s2 := (as_dict_list s1).2 in
  reaches (heap s2) (as_dict_list module_state).1 5 /\
  read_back 4 (heap (store 5 (ODict []) s2)) (as_dict_list s1).1
    = Some (mapping_list PLANT_CONFIGURATIONS) /\
  read_back 4 (heap (store 5 (ODict []) s2)) (as_dict_list module_state).1
    <> Some (mapping_list PLANT_CONFIGURATIONS).
Proof.
  cbv zeta.
  assert (reaches (heap (as_dict_list (as_dict_list module_state).2).2)
            (as_dict_list module_state).1 5) as Hr.
  { eapply reaches_list; [reflexivity | | apply reaches_here].
    apply list_elem_of_here. }
  split; [exact Hr|]. split.
  - exact (proj1 (proj1 (proj2 (proj2 (as_dict_list_twice_independent module_state)))
                    5 (ODict []) 4 Hr (le_n 4))).
  - vm_compute. discriminate.
Defined.

(** * Further properties *)

(** ** How much a call allocates *)

Lemma asdict_items_length attrs :
  Forall (fun kv => forall h,
            length (asdict_inner kv.2 h).2 = length h + instances kv.2) attrs ->
  forall h, length (asdict_items attrs h).2
            = length h + foldr (fun kv n => instances kv.2 + n) 0 attrs.
Proof.
  induction 1 as [|[k a] attrs Ha _ IH]; intros h.
  - simpl. lia.
  - rewrite asdict_items_cons. specialize (Ha h). simpl in Ha.
    destruct (asdict_inner a h) as [w h1]. specialize (IH h1).
    destruct (asdict_items attrs h1) as [rest h2]. simpl in *. lia.
Qed.

Lemma asdict_inner_length v h :
  length (asdict_inner v h).2 = length h + instances v.
Proof.
  revert h. induction v as [x|t| |cls attrs IH] using pyval_nested_ind; intros h;
    try (simpl; lia).
  rewrite asdict_inner_instance.
  pose proof (asdict_items_length attrs IH h) as Hlen.
  destruct (asdict_items attrs h) as [items h1]. cbn [fst snd] in *.
  rewrite length_app. cbn [instances length]. lia.
Qed.

Lemma plant_configuration_instances (c : PlantConfiguration) : instances (to_py c) = 6.
Proof.
  destruct c as [nm [sz od lt [el [ht|] hl wt] out] fin tech]; reflexivity.
Qed.

Lemma asdict_each_length cs h :
  length (asdict_each cs h).2 = length h + 6 * length cs.
Proof.
  revert h. induction cs as [|c cs IH]; intros h.
  - simpl. lia.
  - rewrite asdict_each_cons.
    pose proof (asdict_inner_length (to_py c) h) as Hc.
    rewrite plant_configuration_instances in Hc. unfold asdict.
    destruct (asdict_inner (to_py c) h) as [d h1]. specialize (IH h1).
    destruct (asdict_each cs h1) as [ds h2]. cbn [fst snd length] in *. lia.
Qed.

Lemma asdict_each_result_length cs h : length (asdict_each cs h).1 = length cs.
Proof.
  revert h. induction cs as [|c cs IH]; intros h; [reflexivity|].
  rewrite asdict_each_cons. destruct (asdict c h) as [d h1]. specialize (IH h1).
  destruct (asdict_each cs h1) as [ds h2]. cbn [fst snd length] in *. lia.
Qed.

(** The list object of the result: where it is and what it holds. *)
Lemma as_dict_list_result s :
  (as_dict_list s).1 = VRef (length (heap s) + 6 * length (plant_configurations s)) /\
  heap (as_dict_list s).2
    = (asdict_each (plant_configurations s) (heap s)).2
      ++ [OList (asdict_each (plant_configurations s) (heap s)).1].
Proof.
  rewrite as_dict_list_unfold.
  pose proof (asdict_each_length (plant_configurations s) (heap s)) as Hlen.
  destruct (asdict_each (plant_configurations s) (heap s)) as [ds h1].
  cbn [fst snd heap] in *. by rewrite Hlen.
Qed.

Lemma as_dict_list_heap_length s :
  length (heap (as_dict_list s).2)
    = length (heap s) + 6 * length (plant_configurations s) + 1.
Proof.
  destruct (as_dict_list_result s) as [_ Hh].
  rewrite Hh, length_app, asdict_each_length. simpl. lia.
Qed.


(** ** The mappings of one result *)

Lemma asdict_each_extends cs h : exists new, (asdict_each cs h).2 = h ++ new.
Proof. destruct (asdict_each_built cs h) as (new & E & _). eauto. Qed.

(** The [i]-th mapping is made of the six objects allocated for the [i]-th
    configuration. *)
Lemma asdict_each_regions cs : forall h i c,
  cs !! i = Some c ->
  exists d, (asdict_each cs h).1 !! i = Some d /\
    represents (length h + 6 * i) (length h + 6 * S i) (asdict_each cs h).2
      (nested_mapping (to_py c)) d.
Proof.
  induction cs as [|c0 cs IH]; intros h i c Hi; [done|].
  rewrite asdict_each_cons.
  destruct (asdict_inner_built (to_py c0) h) as (new1 & E1 & R1).
  pose proof (asdict_inner_length (to_py c0) h) as Hlen.
  rewrite plant_configuration_instances in Hlen. unfold asdict.
  destruct (asdict_inner (to_py c0) h) as [d0 h1]. cbn [fst snd] in E1, R1, Hlen.
  destruct (asdict_each_extends cs h1) as (new2 & E2).
  specialize (IH h1).
  destruct (asdict_each cs h1) as [ds h2]. cbn [fst snd] in *.
  destruct i as [|i].
  - injection Hi as <-. exists d0. split; [reflexivity|].
    assert (length new1 = 6) as Hnew.
    { rewrite E1, length_app in Hlen. lia. }
    rewrite E2. apply represents_app; [lia|]. rewrite E1.
    eapply represents_frame; [| | |exact R1]; [lia | lia | done].
  - destruct (IH i c Hi) as (d & Hd & R). exists d. split; [exact Hd|].
    eapply represents_frame; [| | |exact R]; [lia | lia | done].
Qed.

(** X2: in one result of [as_dict_list] the mappings of two different
    positions have no object in common, also when the same record is at
    both positions: changing one mapping of the list cannot change
    another. *)
Theorem as_dict_list_mappings_disjoint s i j di dj l :
  i <> j ->
  getitem_list (heap (as_dict_list s).2) (as_dict_list s).1 i = Ok di ->
  getitem_list (heap (as_dict_list s).2) (as_dict_list s).1 j = Ok dj ->
  reaches (heap (as_dict_list s).2) di l ->
  ~ reaches (heap (as_dict_list s).2) dj l.
Proof.
  intros Hij Hi Hj Hli Hlj.
  destruct (as_dict_list_result s) as [Hr Hh].
  pose proof (asdict_each_length (plant_configurations s) (heap s)) as Hlen.
  pose proof (asdict_each_result_length (plant_configurations s) (heap s)) as Hds.
  pose proof (asdict_each_regions (plant_configurations s) (heap s)) as Hreg.
  set (ds := (asdict_each (plant_configurations s) (heap s)).1) in *.
  set (h1 := (asdict_each (plant_configurations s) (heap s)).2) in *.
  assert (heap (as_dict_list s).2 !! (length (heap s) + 6 * length (plant_configurations s))
          = Some (OList ds)) as Hlk.
  { rewrite Hh, lookup_app_r by lia. by rewrite Hlen, Nat.sub_diag. }
  unfold getitem_list, subscript in Hi, Hj. unfold loc in *.
  rewrite Hr, Hlk in Hi, Hj.
  assert (forall k d, ds !! k = Some d ->
            forall l', reaches (heap (as_dict_list s).2) d l' ->
              length (heap s) + 6 * k <= l' < length (heap s) + 6 * S k) as Hbound.
  { intros k d Hk l' Hl'.
    assert (is_Some (plant_configurations s !! k)) as [c Hc].
    { apply lookup_lt_is_Some. rewrite <- Hds. by eapply lookup_lt_Some. }
    destruct (Hreg k c Hc) as (d' & Hd' & R). rewrite Hk in Hd'. injection Hd' as <-.
    eapply represents_reaches; [|exact Hl'].
    rewrite Hh. apply represents_app; [|exact R].
    assert (k < length (plant_configurations s)) by by eapply lookup_lt_Some.
    lia. }
  destruct (ds !! i) as [di'|] eqn:Ei; [|discriminate Hi]. injection Hi as ->.
  destruct (ds !! j) as [dj'|] eqn:Ej; [|discriminate Hj]. injection Hj as ->.
  pose proof (Hbound i di Ei l Hli) as Bi.
  pose proof (Hbound j dj Ej l Hlj) as Bj.
  clear -Hij Bi Bj. lia.
Qed.

Lemma as_dict_list_mappings_disjoint_witness :
  0 <> 1 /\
  getitem_list (heap (as_dict_list module_state).2) (as_dict_list module_state).1 0
    = Ok (VRef 5) /\
  getitem_list (heap (as_dict_list module_state).2) (as_dict_list module_state).1 1
    = Ok (VRef 11) /\
  reaches (heap (as_dict_list module_state).2) (VRef 5) 3 /\
  ~ reaches (heap (as_dict_list module_state).2) (VRef 11) 3.
Proof.
  assert (reaches (heap (as_dict_list module_state).2) (VRef 5) 3) as Hr.
  { eapply reaches_dict with (k := "financial") (w := VRef 3);
      [reflexivity | | apply reaches_here].
    apply list_elem_of_further, list_elem_of_further, list_elem_of_here. }
  split; [lia|]. split; [reflexivity|]. split; [reflexivity|]. split; [exact Hr|].
  exact (as_dict_list_mappings_disjoint module_state 0 1 (VRef 5) (VRef 11) 3
           (O_S 0) eq_refl eq_refl Hr).
Defined.

(** ** The entry point *)

Lemma main_unfold s :
  main s =
    write (PPrintRecords (plant_configurations (as_dict_list s).2))
      (write PrintBlank (write (PPrintValue (as_dict_list s).1) (as_dict_list s).2)).
Proof. unfold main. by destruct (as_dict_list s). Qed.

Lemma main_stdout s :
  stdout (main s)
    = stdout s ++ [ PPrintValue (as_dict_list s).1; PrintBlank;
                    PPrintRecords (plant_configurations s) ].
Proof.
  rewrite main_unfold. cbn [write stdout plant_configurations].
  by rewrite as_dict_list_stdout, as_dict_list_plant_configurations, <- !app_assoc.
Qed.

(** X3: [main] prints three things after whatever was printed before: the
    value [as_dict_list] returned, a blank line, and the catalog; in the
    heap [main] leaves, the printed value reads back as the mapping list of
    the printed catalog; and [main] changes neither the catalog nor any
    object that existed before. *)
Theorem main_prints_mappings_then_records s :
  stdout (main s)
    = stdout s ++ [ PPrintValue (as_dict_list s).1; PrintBlank;
                    PPrintRecords (plant_configurations s) ] /\
  (forall n, height (mapping_list (plant_configurations s)) <= n ->
     read_back n (heap (main s)) (as_dict_list s).1
       = Some (mapping_list (plant_configurations s))) /\
  plant_configurations (main s) = plant_configurations s /\
  (exists new, heap (main s) = heap s ++ new /\
               length new = 6 * length (plant_configurations s) + 1).
Proof.
  rewrite main_unfold. cbn [write stdout heap plant_configurations].
  rewrite as_dict_list_stdout, as_dict_list_plant_configurations, <- !app_assoc.
  split; [reflexivity|]. split; [|split; [reflexivity|]].
  - intros n Hn. eapply represents_read_back; [apply as_dict_list_represents | exact Hn].
  - destruct (as_dict_list_heap s) as (new & E). exists new. split; [exact E|].
    pose proof (as_dict_list_heap_length s) as Hlen.
    rewrite E, length_app in Hlen. lia.
Qed.

(** X4: whatever the program has done, its output is a sequence of runs of
    [main]: each run is a printed value, a blank line and the catalog
    [PLANT_CONFIGURATIONS], in that order, and nothing else is ever
    printed. *)
Theorem stdout_is_runs_of_main s :
  reachable s ->
  exists rs : list val,
    stdout s
      = flat_map (fun r => [PPrintValue r; PrintBlank; PPrintRecords PLANT_CONFIGURATIONS])
                 rs.
Proof.
  induction 1 as [|s s' Hs [rs IH] Hstep].
  - by exists [].
  - destruct Hstep as [s|s|s l o Hl].
    + exists rs. by rewrite as_dict_list_stdout.
    + exists (rs ++ [(as_dict_list s).1]).
      rewrite main_stdout, IH, flat_map_app.
      simpl. by rewrite (reachable_plant_configurations s Hs).
    + by exists rs.
Qed.

Lemma stdout_is_runs_of_main_witness :
  reachable (main (main module_state)) /\
  exists rs : list val,
    stdout (main (main module_state))
      = flat_map (fun r => [PPrintValue r; PrintBlank; PPrintRecords PLANT_CONFIGURATIONS])
                 rs.
Proof.
  assert (reachable (main (main module_state))) as Hs.
  { eapply reachable_step; [eapply reachable_step; [apply reachable_init|]|];
      apply step_main. }
  split; [exact Hs | exact (stdout_is_runs_of_main _ Hs)].
Defined.

(** ** [asdict] on any record *)

(** X5: for a record of any of the dataclasses -- a whole configuration or
    one of its parts -- [asdict] leaves the heap it starts on untouched,
    builds one dict for each record nested in its argument, the argument
    included, and returns a new dict whose keys are the declared field
    names of the class, in order, and which reads back as the nested
    mapping of the record. *)
Theorem asdict_builds_fresh_mapping {A} `{Dataclass A} (x : A) (h : list obj) :
  exists l new,
    asdict x h = (VRef l, h ++ new) /\
    length h <= l /\
    length new = instances (to_py x) /\
    dict_keys (h ++ new) (VRef l) = Some (cls_fields (dc_class A)) /\
    (forall n, height (nested_mapping (to_py x)) <= n ->
       read_back n (h ++ new) (VRef l) = Some (nested_mapping (to_py x))).
Proof.
  unfold asdict.
  destruct (asdict_inner_built (to_py x) h) as (new & E & R).
  pose proof (asdict_inner_length (to_py x) h) as Hlen.
  destruct (asdict_inner (to_py x) h) as [r h'] eqn:Er. cbn [fst snd] in E, R, Hlen.
  subst h'.
  assert (exists l, r = VRef l /\ length h <= l) as (l & -> & Hl).
  { simpl in R. destruct R as (l & items & -> & Hl & _). exists l. split; [done | lia]. }
  exists l, new. split; [reflexivity|]. split; [exact Hl|]. split.
  { rewrite length_app in Hlen. lia. }
  split.
  - rewrite <- (dc_attrs_fields x). by eapply represents_dict_keys.
  - intros n Hn. by eapply represents_read_back.
Qed.

(** ** Construction *)

Lemma kwargs_get_is_Some k (kwargs : list (string * pyval)) :
  is_Some (kwargs_get k kwargs) <-> k ∈ kwargs.*1.
Proof.
  induction kwargs as [|[k' v] kwargs IH]; simpl.
  - rewrite elem_of_nil. split; [intros [? [=]] | done].
  - rewrite elem_of_cons. destruct (String.eqb_spec k k') as [->|Hne].
    + split; [by left | by eauto].
    + rewrite IH. split; [by right | by intros [?|?]].
Qed.

Lemma bind_fields_Ok fields kwargs attrs :
  bind_fields fields kwargs = Ok attrs ->
  attrs.*1 = fields /\ Forall (fun kv => kwargs_get kv.1 kwargs = Some kv.2) attrs.
Proof.
  revert attrs. induction fields as [|f fields IH]; intros attrs; simpl.
  - intros [= <-]. split; [done | constructor].
  - destruct (kwargs_get f kwargs) as [v|] eqn:Hf; [|discriminate].
    destruct (bind_fields fields kwargs) as [attrs'|]; [|discriminate].
    intros [= <-]. destruct (IH attrs' eq_refl) as [E HF].
    split; [by rewrite fmap_cons, E | by constructor].
Qed.

Lemma bind_fields_Raise fields kwargs e :
  bind_fields fields kwargs = Raise e ->
  exists f msg, f ∈ fields /\ (f ∉ kwargs.*1) /\ e = TypeError msg.
Proof.
  induction fields as [|f fields IH]; simpl; [discriminate|].
  destruct (kwargs_get f kwargs) as [v|] eqn:Hf.
  - destruct (bind_fields fields kwargs) as [attrs'|e']; [discriminate|].
    intros [= <-]. destruct (IH eq_refl) as (f' & msg & ? & ? & ?).
    exists f', msg. split; [by right | done].
  - intros [= <-]. exists f, ("missing required argument: '" +:+ f +:+ "'").
    split; [by left|]. split; [|done].
    rewrite <- kwargs_get_is_Some, Hf. by intros [? [=]].
Qed.

Lemma bind_fields_total fields kwargs :
  (forall f, f ∈ fields -> f ∈ kwargs.*1) -> exists attrs, bind_fields fields kwargs = Ok attrs.
Proof.
  intros Hall. destruct (bind_fields fields kwargs) as [attrs|e] eqn:E; [eauto|].
  destruct (bind_fields_Raise _ _ _ E) as (f & _ & Hf & Hnf & _).
  destruct (Hnf (Hall f Hf)).
Qed.

Lemma unexpected_keyword_None (fields : list string) (kwargs : list (string * pyval)) :
  List.find (fun kv => negb (existsb (String.eqb kv.1) fields)) kwargs = None <->
  (forall k, k ∈ kwargs.*1 -> k ∈ fields).
Proof.
  induction kwargs as [|[k v] kwargs IH]; simpl.
  - split; [intros _ k Hk; by apply elem_of_nil in Hk | done].
  - destruct (existsb (String.eqb k) fields) eqn:Ek; simpl.
    + rewrite IH. apply existsb_exists in Ek as (f & Hf & Hkf).
      apply String.eqb_eq in Hkf as <-. apply list_elem_of_In in Hf.
      split.
      * intros Hall k' Hk'. apply elem_of_cons in Hk' as [->|Hk']; auto.
      * intros Hall k' Hk'. apply Hall. by right.
    + split; [discriminate|]. intros Hall.
      assert (k ∈ fields) as Hk by (apply Hall; by left).
      assert (existsb (String.eqb k) fields = true) as Ek'.
      { apply existsb_exists. exists k. split; [by apply list_elem_of_In|].
        apply String.eqb_refl. }
      congruence.
Qed.


Lemma kwargs_get_elem_of k v (kwargs : list (string * pyval)) :
  NoDup kwargs.*1 -> (k, v) ∈ kwargs -> kwargs_get k kwargs = Some v.
Proof.
  induction kwargs as [|[k' v'] kwargs IH]; simpl.
  - intros _ Hin. by apply elem_of_nil in Hin.
  - rewrite NoDup_cons. intros [Hk' Hnd] Hin.
    apply elem_of_cons in Hin as [[= -> ->]|Hin].
    + by rewrite String.eqb_refl.
    + destruct (String.eqb_spec k k') as [->|_]; [|by apply IH].
      destruct Hk'. apply list_elem_of_fmap. by exists (k', v).
Qed.

Lemma kwargs_get_elem_of_inv k v (kwargs : list (string * pyval)) :
  kwargs_get k kwargs = Some v -> (k, v) ∈ kwargs.
Proof.
  induction kwargs as [|[k' v'] kwargs IH]; simpl; [discriminate|].
  destruct (String.eqb_spec k k') as [->|_].
  - intros [= ->]. by left.
  - intros Hget. right. by apply IH.
Qed.

Lemma kwargs_get_Permutation k (kwargs kwargs' : list (string * pyval)) :
  NoDup kwargs.*1 -> kwargs ≡ₚ kwargs' -> kwargs_get k kwargs = kwargs_get k kwargs'.
Proof.
  intros Hnd Hperm.
  assert (NoDup kwargs'.*1) as Hnd' by by rewrite <- Hperm.
  destruct (kwargs_get k kwargs) as [v|] eqn:E.
  - symmetry. apply kwargs_get_elem_of; [done|].
    rewrite <- Hperm. by apply kwargs_get_elem_of_inv.
  - destruct (kwargs_get k kwargs') as [v'|] eqn:E'; [|done].
    apply kwargs_get_elem_of_inv in E'. rewrite <- Hperm in E'.
    apply (kwargs_get_elem_of _ _ _ Hnd) in E'. congruence.
Qed.

Lemma bind_fields_Permutation fields (kwargs kwargs' : list (string * pyval)) :
  NoDup kwargs.*1 -> kwargs ≡ₚ kwargs' ->
  bind_fields fields kwargs = bind_fields fields kwargs'.
Proof.
  intros Hnd Hperm. induction fields as [|f fields IH]; simpl; [done|].
  by rewrite (kwargs_get_Permutation f _ _ Hnd Hperm), IH.
Qed.

(** X7: the order of the keyword arguments does not matter: when no keyword
    is repeated (Python refuses a call that repeats one), a constructor
    call that succeeds returns the same record for every reordering of its
    keywords. *)
Theorem dataclass_init_keyword_order cls kwargs kwargs' self :
  NoDup kwargs.*1 ->
  kwargs ≡ₚ kwargs' ->
  dataclass_init cls kwargs = Ok self ->
  dataclass_init cls kwargs' = Ok self.
Proof.
  intros Hnd Hperm. unfold dataclass_init.
  destruct (List.find _ kwargs) as [kv|] eqn:Efind; [discriminate|].
  assert (List.find (fun kv => negb (existsb (String.eqb kv.1) (cls_fields cls))) kwargs'
          = None) as ->.
  { apply unexpected_keyword_None. intros k Hk. rewrite <- Hperm in Hk.
    by apply (proj1 (unexpected_keyword_None _ _) Efind). }
  by rewrite (bind_fields_Permutation _ _ _ Hnd Hperm).
Qed.

Lemma dataclass_init_keyword_order_witness :
  NoDup [("specific_investment_eur_per_kw_total_input", PyFloat 1161.3);
         ("specific_investment_eur_per_kg_per_hour_hydrogen_output", PyFloat 5585.15);
         ("o_and_m_pct_of_specific_investment_per_year", PyFloat 15.0)].*1 /\
  dataclass_init (dc_class FinancialData)
    [("o_and_m_pct_of_specific_investment_per_year", PyFloat 15.0);
     ("specific_investment_eur_per_kw_total_input", PyFloat 1161.3);
     ("specific_investment_eur_per_kg_per_hour_hydrogen_output", PyFloat 5585.15)]
  = Ok (to_py (financial AEC_100MW_ENS_2025)).
Proof.
  assert (NoDup [("specific_investment_eur_per_kw_total_input", PyFloat 1161.3);
         ("specific_investment_eur_per_kg_per_hour_hydrogen_output", PyFloat 5585.15);
         ("o_and_m_pct_of_specific_investment_per_year", PyFloat 15.0)].*1) as Hnd.
  { simpl. repeat constructor; rewrite ?elem_of_cons, ?elem_of_nil;
      intros H; repeat destruct H as [H|H]; done. }
  split; [exact Hnd|].
  refine (dataclass_init_keyword_order (dc_class FinancialData) _ _ _ Hnd _ eq_refl).
  change ([("specific_investment_eur_per_kw_total_input", PyFloat 1161.3);
           ("specific_investment_eur_per_kg_per_hour_hydrogen_output", PyFloat 5585.15)]
          ++ [("o_and_m_pct_of_specific_investment_per_year", PyFloat 15.0)]
          ≡ₚ [("o_and_m_pct_of_specific_investment_per_year", PyFloat 15.0)]
             ++ [("specific_investment_eur_per_kw_total_input", PyFloat 1161.3);
                 ("specific_investment_eur_per_kg_per_hour_hydrogen_output",
                  PyFloat 5585.15)]).
  apply Permutation_app_comm.
Defined.



(** ** Deleting a field *)

(** X9: deleting an attribute of a record of any of the six classes fails
    with [FrozenInstanceError] when the [del] statement is executed, for a
    declared field and for any other name, and leaves the record as it
    was. *)
Theorem frozen_record_rejects_deletion cls attrs attr :
  cls ∈ data_classes ->
  del_attr (PyInstance cls attrs) attr
    = (Some (FrozenInstanceError ("cannot delete field '" +:+ attr +:+ "'")),
       PyInstance cls attrs).
Proof.
  intros Hcls. unfold del_attr, dataclass_delattr.
  by rewrite (data_classes_frozen _ Hcls).
Qed.

Lemma frozen_record_rejects_deletion_witness :
  dc_class PlantConfiguration ∈ data_classes /\
  del_attr (to_py PEM_100MW_ENS_2025) "financial"
    = (Some (FrozenInstanceError "cannot delete field 'financial'"),
       to_py PEM_100MW_ENS_2025).
Proof.
  assert (dc_class PlantConfiguration ∈ data_classes) as Hcls.
  { unfold data_classes. do 5 right. left. }
  split; [exact Hcls|].
  exact (frozen_record_rejects_deletion (dc_class PlantConfiguration)
           (dc_attrs PEM_100MW_ENS_2025) "financial" Hcls).
Defined.

(** ** From a mapping back to a record *)

(** X10: for the four classes whose fields are all floats (or the optional
    float) -- [InputData], [OutputData], [FinancialData],
    [TechnologySpecificData] -- the dict [asdict] returns, passed back to
    the class as keyword arguments, constructs the original record again,
    an absent heat percentage included. *)
Theorem asdict_then_init_round_trip :
  (forall (x : InputData) h, rebuilds x h) /\
  (forall (x : OutputData) h, rebuilds x h) /\
  (forall (x : FinancialData) h, rebuilds x h) /\
  (forall (x : TechnologySpecificData) h, rebuilds x h).
Proof.
  repeat split; intros x h; unfold rebuilds.
  - destruct x as [el [ht|] hl wt]; rebuild_flat_record.
  - destruct x; rebuild_flat_record.
  - destruct x; rebuild_flat_record.
  - destruct x; rebuild_flat_record.
Qed.

(** ** Reading past the end, and a key that is not there *)

Lemma items_get_None k (items : list (string * val)) :
  items_get k items = None <-> k ∉ items.*1.
Proof.
  induction items as [|[k' w] items IH]; simpl.
  - split; [intros _; apply not_elem_of_nil | done].
  - rewrite not_elem_of_cons. destruct (String.eqb_spec k k') as [->|Hne].
    + split; [discriminate | by intros [? _]].
    + rewrite IH. split; [by intros ? | by intros [_ ?]].
Qed.

Lemma as_dict_list_getitem s i :
  getitem_list (heap (as_dict_list s).2) (as_dict_list s).1 i
    = match (asdict_each (plant_configurations s) (heap s)).1 !! i with
      | Some d => Ok d
      | None => Raise IndexError
      end.
Proof.
  destruct (as_dict_list_result s) as [Hr Hh].
  pose proof (asdict_each_length (plant_configurations s) (heap s)) as Hlen.
  unfold getitem_list, subscript. rewrite Hr, Hh.
  by rewrite list_lookup_middle by done.
Qed.



(** ** The numbers of the catalog *)

(** X12: every number stored in a configuration of the catalog, at any
    depth, is a finite float (neither a NaN nor an infinity) and is not
    negative; each configuration stores 21 of them. *)
Theorem catalog_numbers_finite c :
  c ∈ PLANT_CONFIGURATIONS ->
  length (float_leaves (to_py c)) = 21 /\
  Forall (fun x => is_finite x = true /\ PrimFloat.leb 0 x = true)
         (float_leaves (to_py c)).
Proof.
  unfold PLANT_CONFIGURATIONS. rewrite !elem_of_cons, elem_of_nil.
  intros [->|[->|[]]]; (split; [reflexivity|]); repeat constructor.
Qed.

Lemma catalog_numbers_finite_witness :
  AEC_100MW_ENS_2025 ∈ PLANT_CONFIGURATIONS /\
  Forall (fun x => is_finite x = true /\ PrimFloat.leb 0 x = true)
         (float_leaves (to_py AEC_100MW_ENS_2025)).
Proof.
  assert (AEC_100MW_ENS_2025 ∈ PLANT_CONFIGURATIONS) as Hin
    by (unfold PLANT_CONFIGURATIONS; left).
  split; [exact Hin | exact (proj2 (catalog_numbers_finite _ Hin))].
Defined.

(** X13: in every configuration of the catalog the hydrogen, oxygen and
    heat shares of the output energy, added as Python adds floats, in
    field order, give exactly 100.0. *)
Theorem catalog_output_shares_sum_to_100 c :
  c ∈ PLANT_CONFIGURATIONS ->
  output_pct_sum (output (energy_technical c)) = 100.0%float /\
  PrimFloat.eqb (output_pct_sum (output (energy_technical c))) 100.0 = true.
Proof.
  unfold PLANT_CONFIGURATIONS. rewrite !elem_of_cons, elem_of_nil.
  intros [->|[->|[]]]; split; vm_compute; reflexivity.
Qed.

Lemma catalog_output_shares_sum_to_100_witness :
  PEM_100MW_ENS_2025 ∈ PLANT_CONFIGURATIONS /\
  output_pct_sum (output (energy_technical PEM_100MW_ENS_2025)) = 100.0%float.
Proof.
  assert (PEM_100MW_ENS_2025 ∈ PLANT_CONFIGURATIONS) as Hin
    by (unfold PLANT_CONFIGURATIONS; right; left).
  split; [exact Hin | exact (proj1 (catalog_output_shares_sum_to_100 _ Hin))].
Defined.
